(** * Sitemap crawler: a shallow embedding of [sitemap-crawler.py]

    The development follows the Python module top to bottom: Python strings,
    exceptions, the [xml.etree] element tree with the fragment of ElementPath
    that the crawler's queries use, the [SitemapCrawler] class with its
    effects (console, HTTP session, sleeping, CSV output) threaded through a
    small exception-and-state monad, and then the properties of the
    extraction pipeline.

    Embedded: [__init__], [_fetch_xml], [_make_absolute_url],
    [_extract_text], [_extract_sitemap_urls], [_extract_url_data],
    [crawl_sitemap_index], [save_to_csv], [print_statistics] and [main].
    The fixed request headers of [_create_session] are part of what the
    network sees and have no counterpart here. *)

From Stdlib Require Import List NArith Bool String Ascii Arith Lia.
From Stdlib Require Import Permutation Sorted DecimalString PrimFloat.
From Stdlib.Strings Require Import Byte.
Import ListNotations.

Set Implicit Arguments.

(** ** Python strings

    A Python [str] is a sequence of Unicode code points; a code point is an
    [N].  Literals are written [py "text"]. *)

Module Py.

Definition char := N.
Definition str := list char.

Definition py (s : string) : str := map N_of_ascii (list_ascii_of_string s).

(** A one-character literal, [ch "/"]. *)
Definition ch (a : ascii) : char := N_of_ascii a.

Fixpoint eqb (a b : str) : bool :=
  match a, b with
  | [], [] => true
  | x :: a', y :: b' => N.eqb x y && eqb a' b'
  | _, _ => false
  end.

(** [a < b] on [str]: lexicographic on code points, a proper prefix first. *)
Fixpoint ltb (a b : str) : bool :=
  match a, b with
  | _, [] => false
  | [], _ :: _ => true
  | x :: a', y :: b' => N.ltb x y || (N.eqb x y && ltb a' b')
  end.

(** Truth value of a string or a list: non-empty. *)
Definition truthy {A : Type} (l : list A) : bool :=
  match l with [] => false | _ :: _ => true end.

(** [str.isspace] on one code point (the table of CPython's
    [_PyUnicode_IsWhitespace]). *)
Definition isspace (c : char) : bool :=
  ((0x09 <=? c) && (c <=? 0x0D) || (0x1C <=? c) && (c <=? 0x20)
   || (c =? 0x85) || (c =? 0xA0) || (c =? 0x1680)
   || (0x2000 <=? c) && (c <=? 0x200A)
   || (c =? 0x2028) || (c =? 0x2029) || (c =? 0x202F) || (c =? 0x205F)
   || (c =? 0x3000))%N.

Fixpoint lstrip (s : str) : str :=
  match s with
  | c :: s' => if isspace c then lstrip s' else s
  | [] => []
  end.

Definition rstrip (s : str) : str := rev (lstrip (rev s)).

(** [s.strip()] *)
Definition strip (s : str) : str := rstrip (lstrip s).

(** [s.rstrip(chars)] *)
Fixpoint lstrip_chars (chars s : str) : str :=
  match s with
  | c :: s' => if existsb (N.eqb c) chars then lstrip_chars chars s' else s
  | [] => []
  end.

Definition rstrip_chars (chars s : str) : str := rev (lstrip_chars chars (rev s)).

(** [s.startswith(prefix)] *)
Fixpoint startswith (prefix s : str) : bool :=
  match prefix, s with
  | [], _ => true
  | p :: prefix', c :: s' => N.eqb p c && startswith prefix' s'
  | _ :: _, [] => false
  end.

(** [sub in s] *)
Fixpoint contains (sub s : str) : bool :=
  startswith sub s ||
  match s with
  | [] => false
  | _ :: s' => contains sub s'
  end.

(** [s.split(sep)] for a one-character separator: never an empty list. *)
Fixpoint split (sep : char) (s : str) : list str :=
  match s with
  | [] => [[]]
  | c :: s' =>
      if N.eqb c sep then [] :: split sep s'
      else match split sep s' with
           | field :: fields => (c :: field) :: fields
           | [] => [[c]]
           end
  end.

(** [s.split(sep, 1)] read as a pair: the text before the first separator
    and the text after it (the separator is known to occur). *)
Fixpoint split_once (sep : char) (s : str) : str * str :=
  match s with
  | [] => ([], [])
  | c :: s' =>
      if N.eqb c sep then ([], s')
      else let (before, after) := split_once sep s' in (c :: before, after)
  end.

(** [sep.join(fields)] for a one-character separator. *)
Fixpoint join (sep : char) (fields : list str) : str :=
  match fields with
  | [] => []
  | [field] => field
  | field :: fields' => field ++ sep :: join sep fields'
  end.

(** [l[-1]] on a list of strings that is not empty. *)
Definition last_item (l : list str) : str := last l [].

(** [len(l)] *)
Definition len {A : Type} (l : list A) : nat := List.length l.

(** [str(n)] for a length. *)
Definition str_of_nat (n : nat) : str :=
  py (NilEmpty.string_of_uint (Nat.to_uint n)).

End Py.

Import Py.

(** ** Exceptions and results

    The exception classes the module can meet.  [requests.HTTPError],
    [Timeout], [ConnectionError], [MissingSchema] and the like are all
    subclasses of [requests.RequestException] and are caught as such, so one
    constructor stands for the family.  [ValueError], [LookupError] (the
    parser on an encoding it does not support or does not know),
    [LocationParseError] (of [urllib3], which is no [RequestException]) and
    [OverflowError] are classes that no handler of the module names.
    [OutsideFragment] is not a Python exception: it marks an ElementPath
    expression that the model below does not interpret. *)

Inductive exn : Type :=
| RequestException (msg : str)
| ParseError (msg : str)
| SyntaxError (msg : str)
| ValueError (msg : str)
| LookupError (msg : str)
| LocationParseError (msg : str)
| OverflowError (msg : str)
| OutsideFragment.

Inductive Result (A : Type) : Type :=
| Ok (a : A)
| Raise (e : exn).

Arguments Ok {A} a.
Arguments Raise {A} e.

Class Monad (m : Type -> Type) : Type := {
  ret : forall {A : Type}, A -> m A;
  bind : forall {A B : Type}, m A -> (A -> m B) -> m B
}.

Declare Scope monad_scope.
Delimit Scope monad_scope with monad.
Notation "x <- c1 ;; c2" := (bind c1 (fun x => c2))
  (at level 61, c1 at next level, right associativity) : monad_scope.
Notation "c1 ;; c2" := (bind c1 (fun _ => c2))
  (at level 61, right associativity) : monad_scope.
Open Scope monad_scope.

#[export] Instance Monad_Result : Monad Result := {
  ret := fun A a => Ok a;
  bind := fun A B c k => match c with Ok a => k a | Raise e => Raise e end
}.

(** ** Element trees

    [xml.etree.ElementTree.Element]: the tag in Clark notation
    ([{uri}local], or [local] outside any namespace), the text before the
    first child ([None] when there is none) and the children in document
    order.  Attributes and tail text are never read by the crawler. *)

Local Unset Elimination Schemes.
Inductive Element : Type :=
  mkElement { tag : str; text : option str; children : list Element }.
Local Set Elimination Schemes.

(** [Element.iter()]: the element, then its descendants, in document order. *)
Fixpoint iter (e : Element) : list Element :=
  e :: flat_map iter (children e).

(** The proper descendants of an element ([iter] without the element). *)
Definition descendants (e : Element) : list Element :=
  flat_map iter (children e).

Definition has_tag (t : str) (e : Element) : bool := Py.eqb (tag e) t.

(** ** ElementPath

    The fragment of [xml.etree.ElementPath] the crawler's queries live in:
    the steps [.], [//name], [/name] and [name], where a name is plain or
    carries a prefix to be looked up in the namespace map. *)

Module ElementPath.

(** A namespace map, prefix to URI (a Python dict). *)
Definition nsmap := list (str * str).

Fixpoint get (key : str) (d : nsmap) : option str :=
  match d with
  | [] => None
  | (k, v) :: d' => if Py.eqb k key then Some v else get key d'
  end.

Inductive token : Type :=
| TSelf                (* [.] *)
| TDescend             (* [//] *)
| TSlash               (* [/] *)
| TName (name : str).

(** Characters that end a name in [xpath_tokenizer_re]. *)
Definition ends_name (c : char) : bool :=
  existsb (N.eqb c) (py "/[]()@!=") || isspace c.

(** Characters that the tokenizer does not read as the start of a name. *)
Definition not_name_start (c : char) : bool :=
  existsb (N.eqb c) (py ".*:'{") || N.eqb c 34 || ends_name c.

Definition flush (name : str) (toks : list token) : list token :=
  match name with
  | [] => toks
  | _ :: _ => TName (rev name) :: toks
  end.

(** The tokens of a path; [name] holds the characters of the name being
    read, last one first. *)
Fixpoint scan (path : str) (name : str) : Result (list token) :=
  match path with
  | [] => Ok (flush name [])
  | c :: rest =>
      if ends_name c then
        match path with
        | 47 :: 47 :: rest' =>
            toks <- scan rest' [] ;; Ok (flush name (TDescend :: toks))
        | 47 :: _ =>
            toks <- scan rest [] ;; Ok (flush name (TSlash :: toks))
        | _ => Raise OutsideFragment
        end%N
      else if Py.truthy name then scan rest (c :: name)
      else if N.eqb c (ch ".") then
        match rest with
        | 46%N :: _ => Raise OutsideFragment
        | _ => toks <- scan rest [] ;; Ok (TSelf :: toks)
        end
      else if not_name_start c then Raise OutsideFragment
      else scan rest [c]
  end.

(** Tags that [prepare_child] and [prepare_descendant] treat as patterns
    rather than compare literally. *)
Definition is_pattern_tag (t : str) : bool :=
  startswith (py "{*}") t || startswith (py "*}") (rev t) || startswith (py "{}") t.

(** A name as [xpath_tokenizer] yields it. *)
Definition resolve (namespaces : nsmap) (name : str) : Result str :=
  t <- (if contains (py ":") name then
          let (prefix, local) := split_once (ch ":") name in
          match get prefix namespaces with
          | Some uri => Ok (py "{" ++ uri ++ py "}" ++ local)
          | None =>
              Raise (SyntaxError (py "prefix '" ++ prefix ++ py "' not found in prefix map"))
          end
        else
          match get [] namespaces with
          | Some (_ :: _ as default_namespace) =>
              Ok (py "{" ++ default_namespace ++ py "}" ++ name)
          | _ => Ok name
          end) ;;
  if is_pattern_tag t then Raise OutsideFragment else Ok t.

Inductive selector : Type :=
| SelSelf
| SelChild (t : str)
| SelDescendant (t : str).

(** The selector list that [iterfind] builds from the tokens. *)
Fixpoint compile (namespaces : nsmap) (toks : list token) : Result (list selector) :=
  match toks with
  | [] => Ok []
  | TSelf :: rest =>
      sels <- match rest with
              | TSlash :: rest' => compile namespaces rest'
              | _ => compile namespaces rest
              end ;;
      Ok (SelSelf :: sels)
  | TName name :: rest =>
      t <- resolve namespaces name ;;
      sels <- match rest with
              | TSlash :: rest' => compile namespaces rest'
              | _ => compile namespaces rest
              end ;;
      Ok (SelChild t :: sels)
  | TDescend :: TName name :: rest =>
      t <- resolve namespaces name ;;
      sels <- match rest with
              | TSlash :: rest' => compile namespaces rest'
              | _ => compile namespaces rest
              end ;;
      Ok (SelDescendant t :: sels)
  | TDescend :: [] => Raise OutsideFragment
  | TDescend :: _ => Raise (SyntaxError (py "invalid descendant"))
  | TSlash :: _ => Raise OutsideFragment
  end.

Definition select (sel : selector) (result : list Element) : list Element :=
  match sel with
  | SelSelf => result
  | SelChild t => flat_map (fun elem => filter (has_tag t) (children elem)) result
  | SelDescendant t => flat_map (fun elem => filter (has_tag t) (descendants elem)) result
  end.

(** [iterfind(elem, path, namespaces)], as a list. *)
Definition iterfind (elem : Element) (path : str) (namespaces : nsmap)
  : Result (list Element) :=
  if startswith (py "/") (rev path) then Raise OutsideFragment
  else if startswith (py "/") path then
    Raise (SyntaxError (py "cannot use absolute path on element"))
  else
    toks <- scan path [] ;;
    match toks with
    | [] => Raise OutsideFragment
    | _ :: _ =>
        selectors <- compile namespaces toks ;;
        Ok (fold_left (fun result sel => select sel result) selectors [elem])
    end.

End ElementPath.

(** [Element.findall(path, namespaces)] *)
Definition findall (elem : Element) (path : str) (namespaces : ElementPath.nsmap)
  : Result (list Element) :=
  ElementPath.iterfind elem path namespaces.

(** [Element.find(path, namespaces)]: the first match, or [None]. *)
Definition find (elem : Element) (path : str) (namespaces : ElementPath.nsmap)
  : Result (option Element) :=
  matches <- ElementPath.iterfind elem path namespaces ;;
  Ok (head matches).

(** ** The outside world

    What the crawler reaches through libraries that are not part of the
    module: the HTTP session of [requests], the XML parser, [time.sleep]
    and [urllib.parse.urljoin].  The transport and the parser either return
    or raise, and what they raise need not be of a class that [_fetch_xml]
    catches; [urljoin] either returns or raises [ValueError]. *)

Definition bytes := list Byte.byte.

(** [requests.Response]: the status code, the reason phrase, the URL the
    response came from and the body. *)
Record Response : Type := {
  status_code : N;
  reason : str;
  response_url : str;
  content : bytes
}.

(** [str(n)] for a status code. *)
Definition str_of_N (n : N) : str := str_of_nat (N.to_nat n).

(** The text of the [HTTPError] that [Response.raise_for_status] raises:
    there is one for the status codes 400 to 599 and for no other. *)
Definition http_error (response : Response) : option str :=
  if ((400 <=? status_code response) && (status_code response <? 500))%N then
    Some (str_of_N (status_code response) ++ py " Client Error: "
          ++ reason response ++ py " for url: " ++ response_url response)
  else if ((500 <=? status_code response) && (status_code response <? 600))%N then
    Some (str_of_N (status_code response) ++ py " Server Error: "
          ++ reason response ++ py " for url: " ++ response_url response)
  else None.

(** What a function of [urllib.parse] gives: its result, or the text of
    the [ValueError] that it raises. *)
Inductive outcome (A : Type) : Type :=
| Returns (a : A)
| Fails (msg : str).

Arguments Returns {A} a.
Arguments Fails {A} msg.

Definition raising {A : Type} (class : str -> exn) (o : outcome A) : Result A :=
  match o with
  | Returns a => Ok a
  | Fails msg => Raise (class msg)
  end.

Class External : Type := {
  (** the state of the network and of the servers *)
  Net : Type;
  (** what the transport adapter of the session does with a request that
      [requests] sends: a response, or an exception of any class *)
  adapter_send : Net -> str -> N -> Result Response * Net;
  (** the text of the exception with which [requests] refuses a URL that
      it does not send *)
  refusal : str -> str;
  (** [ET.fromstring(content)]: the tree, or an exception of any class *)
  fromstring : bytes -> Result Element;
  (** [urljoin(base, url)] when neither argument is empty *)
  urljoin_resolve : str -> str -> outcome str
}.

(** What the module does to the outside, call by call: a line printed,
    a call of [session.get], a call of [time.sleep], a file written.  A call
    is recorded whether it returns or raises. *)
Inductive event : Type :=
| Printed (line : str)
| HttpGet (url : str) (timeout : N)
| Slept (seconds : float)
| CsvWritten (filename : str) (rows : list (list str)).

Record World {E : External} : Type := {
  net : Net;
  trace : list event
}.

(** Computations: they may change the world and may raise; what was done
    before an exception stays done. *)
Definition M {E : External} (A : Type) : Type := World -> Result A * World.

#[export] Instance Monad_M {E : External} : Monad M := {
  ret := fun A a w => (Ok a, w);
  bind := fun A B c k w =>
    match c w with
    | (Ok a, w') => k a w'
    | (Raise e, w') => (Raise e, w')
    end
}.

Section Effects.
Context {E : External}.

Definition lift {A : Type} (r : Result A) : M A := fun w => (r, w).

Definition emit (ev : event) : M unit :=
  fun w => (Ok tt, {| net := net w; trace := trace w ++ [ev] |}).

Definition print (line : str) : M unit := emit (Printed line).

(** The exception with which [time.sleep(seconds)] refuses a delay, if it
    does: CPython converts the delay to nanoseconds in a signed 64-bit
    integer and then wants it non-negative. *)
Definition sleep_error (seconds : float) : option exn :=
  if PrimFloat.is_nan seconds then
    Some (ValueError (py "Invalid value NaN (not a number)"))
  else if negb ((-0x1p63 <=? seconds * 1e9) && (seconds * 1e9 <? 0x1p63))%float then
    Some (OverflowError (py "timestamp too large to convert to C PyTime_t"))
  else if (seconds <? 0)%float then
    Some (ValueError (py "sleep length must be non-negative"))
  else None.

(** [time.sleep(seconds)] *)
Definition sleep (seconds : float) : M unit :=
  emit (Slept seconds) ;;
  match sleep_error seconds with
  | Some e => lift (Raise e)
  | None => ret tt
  end.

Definition lower (c : char) : char :=
  if ((0x41 <=? c) && (c <=? 0x5A))%N then (c + 32)%N else c.

(** The URLs that a session of [requests] sends: those that, leading
    whitespace apart and in any letter case, start with [http://] or
    [https://], the prefixes of the two adapters a session is created
    with. *)
Definition served (url : str) : bool :=
  let u := map lower (lstrip url) in
  startswith (py "http://") u || startswith (py "https://") u.

(** [session.get(url, timeout=...)] from a state of the network on: a URL
    that is not sent is refused with a subclass of [RequestException]
    ([MissingSchema], [InvalidSchema], [InvalidURL]) and the network is not
    reached. *)
Definition session_get (n : Net) (url : str) (timeout : N) : Result Response * Net :=
  if served url then adapter_send n url timeout
  else (Raise (RequestException (refusal url)), n).

Definition get (url : str) (timeout : N) : M Response :=
  fun w =>
    let (o, n) := session_get (net w) url timeout in
    (o, {| net := n; trace := trace w ++ [HttpGet url timeout] |}).

Definition raise_for_status (response : Response) : M unit :=
  match http_error response with
  | Some msg => lift (Raise (RequestException msg))
  | None => ret tt
  end.

Definition try_except {A : Type} (body : M A) (handler : exn -> M A) : M A :=
  fun w =>
    match body w with
    | (Ok a, w') => (Ok a, w')
    | (Raise e, w') => handler e w'
    end.

(** [urllib.parse.urljoin] *)
Definition urljoin (base url : str) : Result str :=
  if negb (truthy base) then Ok url
  else if negb (truthy url) then Ok base
  else raising ValueError (urljoin_resolve base url).

End Effects.

(** [str(e)] *)
Definition exn_message (e : exn) : str :=
  match e with
  | RequestException msg | ParseError msg | SyntaxError msg | ValueError msg
  | LookupError msg | LocationParseError msg | OverflowError msg => msg
  | OutsideFragment => []
  end.

(** [sorted(l, key=key)]: the stable sort by [key] under [<] on strings. *)
Fixpoint insert_by {A : Type} (key : A -> str) (x : A) (l : list A) : list A :=
  match l with
  | [] => [x]
  | y :: l' => if Py.ltb (key y) (key x) then y :: insert_by key x l' else x :: l
  end.

Definition sorted {A : Type} (l : list A) (key : A -> str) : list A :=
  fold_right (insert_by key) [] l.

(** ** class SitemapCrawler *)

(** One entry of the result list: the dict with the keys ['url'],
    ['last_modified'] and ['source_sitemap']. *)
Record URLRecord : Type := {
  url : str;
  last_modified : str;
  source_sitemap : str
}.

Record SitemapCrawler : Type := {
  base_url : str;
  delay : float
}.

Definition SITEMAP_NS : ElementPath.nsmap :=
  [(py "ns", py "http://www.sitemaps.org/schemas/sitemap/0.9")].

Definition default_delay : float := 1.0%float.

Definition __init__ (base_url : str) (delay : float) : SitemapCrawler :=
  {| base_url := rstrip_chars (py "/") base_url; delay := delay |}.

(** Safely extract text from XML element. *)
Definition _extract_text (element : option Element) : str :=
  match element with
  | Some e =>
      match text e with
      | Some t => if truthy t then strip t else []
      | None => []
      end
  | None => []
  end.

(** The loop of [_extract_sitemap_urls] over the remaining queries.  Next
    to [urls] it returns [queried], the queries it has run, in order: a ghost
    value, absent from the Python code. *)
Fixpoint sitemap_urls_loop (root : Element) (xpaths : list str)
  (urls : list str) (queried : list str) : Result (list str * list str) :=
  match xpaths with
  | [] => Ok (queried, urls)
  | xpath :: xpaths' =>
      elements <- findall root xpath
                    (if contains (py "ns:") xpath then SITEMAP_NS else []) ;;
      let urls := urls ++ map (fun elem => _extract_text (Some elem)) elements in
      let queried := queried ++ [xpath] in
      if truthy urls then Ok (queried, urls)
      else sitemap_urls_loop root xpaths' urls queried
  end.

Definition sitemap_xpaths : list str :=
  [py ".//ns:sitemap/ns:loc"; py ".//sitemap/loc"].

(** Extract sitemap URLs from sitemap index. *)
Definition _extract_sitemap_urls (root : Element) : Result (list str) :=
  r <- sitemap_urls_loop root sitemap_xpaths [] [] ;;
  Ok (filter truthy (snd r)).

(** The queries that [_extract_sitemap_urls] runs on [root]. *)
Definition sitemap_queries (root : Element) : Result (list str) :=
  r <- sitemap_urls_loop root sitemap_xpaths [] [] ;;
  Ok (fst r).

(** The inner loop of [_extract_url_data] over the matched [<url>] elements. *)
Fixpoint url_entries_loop (url_elems : list Element) (prefix : str)
  (namespace : ElementPath.nsmap) (source : str) (url_data : list URLRecord)
  : Result (list URLRecord) :=
  match url_elems with
  | [] => Ok url_data
  | url_elem :: url_elems' =>
      loc_elem <- find url_elem (prefix ++ py "loc") namespace ;;
      let loc := _extract_text loc_elem in
      if negb (truthy loc) then
        url_entries_loop url_elems' prefix namespace source url_data
      else
        lastmod_elem <- find url_elem (prefix ++ py "lastmod") namespace ;;
        url_entries_loop url_elems' prefix namespace source
          (url_data ++ [{| url := loc;
                           last_modified := _extract_text lastmod_elem;
                           source_sitemap := source |}])
  end.

(** The outer loop of [_extract_url_data] over the remaining queries, with
    the ghost list [queried] as in [sitemap_urls_loop]. *)
Fixpoint url_data_loop (root : Element) (source : str) (xpaths : list str)
  (url_data : list URLRecord) (queried : list str)
  : Result (list str * list URLRecord) :=
  match xpaths with
  | [] => Ok (queried, url_data)
  | xpath :: xpaths' =>
      let namespace := if contains (py "ns:") xpath then SITEMAP_NS else [] in
      let prefix := if contains (py "ns:") xpath then py "ns:" else [] in
      url_elems <- findall root xpath namespace ;;
      url_data <- url_entries_loop url_elems prefix namespace source url_data ;;
      let queried := queried ++ [xpath] in
      if truthy url_data then Ok (queried, url_data)
      else url_data_loop root source xpaths' url_data queried
  end.

Definition url_xpaths : list str := [py ".//ns:url"; py ".//url"].

(** Extract URL data with metadata from sitemap. *)
Definition _extract_url_data (root : Element) (source : str)
  : Result (list URLRecord) :=
  r <- url_data_loop root source url_xpaths [] [] ;;
  Ok (snd r).

(** The queries that [_extract_url_data] runs on [root]. *)
Definition url_queries (root : Element) (source : str) : Result (list str) :=
  r <- url_data_loop root source url_xpaths [] [] ;;
  Ok (fst r).

Section Crawler.
Context {E : External}.

(** Fetch and parse XML from URL with error handling. *)
Definition _fetch_xml (self : SitemapCrawler) (url : str) : M (option Element) :=
  try_except
    (print (py "Fetching: " ++ url) ;;
     response <- get url 30 ;;
     raise_for_status response ;;
     sleep (delay self) ;;
     root <- lift (fromstring (content response)) ;;
     ret (Some root))
    (fun e =>
       match e with
       | RequestException _ | ParseError _ =>
           print (py "Error processing " ++ url ++ py ": " ++ exn_message e) ;;
           ret None
       | _ => lift (Raise e)
       end).

(** Convert relative URL to absolute. *)
Definition _make_absolute_url (self : SitemapCrawler) (url : str) : Result str :=
  if startswith (py "http") url then Ok url else urljoin (base_url self) url.

(** The loop of [crawl_sitemap_index] over the child sitemaps. *)
Fixpoint crawl_children (self : SitemapCrawler) (sitemap_urls : list str)
  (all_url_data : list URLRecord) : M (list URLRecord) :=
  match sitemap_urls with
  | [] => ret all_url_data
  | sitemap_url :: sitemap_urls' =>
      abs_url <- lift (_make_absolute_url self sitemap_url) ;;
      let source_name := last_item (split (ch "/") abs_url) in
      sitemap_root <- _fetch_xml self abs_url ;;
      match sitemap_root with
      | Some sitemap_root =>
          url_data <- lift (_extract_url_data sitemap_root source_name) ;;
          print (py "Extracted " ++ str_of_nat (len url_data)
                 ++ py " URLs from " ++ source_name) ;;
          crawl_children self sitemap_urls' (all_url_data ++ url_data)
      | None => crawl_children self sitemap_urls' all_url_data
      end
  end.

(** Crawl sitemap index and extract all URLs with metadata. *)
Definition crawl_sitemap_index (self : SitemapCrawler) (sitemap_index_url : str)
  : M (list URLRecord) :=
  sitemap_index_url <- lift (_make_absolute_url self sitemap_index_url) ;;
  print (py "Starting crawl from: " ++ sitemap_index_url) ;;
  root <- _fetch_xml self sitemap_index_url ;;
  match root with
  | None => ret []
  | Some root =>
      sitemap_urls <- lift (_extract_sitemap_urls root) ;;
      if negb (truthy sitemap_urls) then
        print (py "Processing as regular sitemap") ;;
        lift (_extract_url_data root (py "sitemap_index.xml"))
      else
        print (py "Found " ++ str_of_nat (len sitemap_urls)
               ++ py " sitemaps to process") ;;
        crawl_children self sitemap_urls []
  end.

Definition fieldnames : list str :=
  [py "url"; py "last_modified"; py "source_sitemap"].

(** The row that [csv.DictWriter] writes for one record. *)
Definition csv_row (r : URLRecord) : list str :=
  [url r; last_modified r; source_sitemap r].

(** Save URL data to CSV file.  The file is recorded by its rows, header
    first; quoting and line ends are the [csv] module's. *)
Definition save_to_csv (self : SitemapCrawler) (url_data : list URLRecord)
  (filename : str) : M unit :=
  if negb (truthy url_data) then print (py "No URLs to save")
  else
    let sorted_data := sorted url_data url in
    emit (CsvWritten filename (fieldnames :: map csv_row sorted_data)) ;;
    print (py "Saved " ++ str_of_nat (len url_data) ++ py " URLs to " ++ filename).

End Crawler.

(** ** Vocabulary of the specification

    The two tag conventions of a sitemap document, and what the queries of
    the crawler select under each of them. *)

Definition NS_URI : str := py "http://www.sitemaps.org/schemas/sitemap/0.9".

Inductive convention : Type := Namespaced | Bare.


(** The tag of [<local>] under a convention. *)
Definition qname (c : convention) (local : str) : str :=
  match c with
  | Namespaced => py "{" ++ NS_URI ++ py "}" ++ local
  | Bare => local
  end.

(** The [<sitemap>] elements below the root. *)
Definition sitemap_entries (c : convention) (root : Element) : list Element :=
  filter (has_tag (qname c (py "sitemap"))) (descendants root).

(** The [<loc>] children of the [<sitemap>] elements. *)
Definition sitemap_locs (c : convention) (root : Element) : list Element :=
  flat_map (fun s => filter (has_tag (qname c (py "loc"))) (children s))
           (sitemap_entries c root).

(** The texts that one query of [_extract_sitemap_urls] appends. *)
Definition sitemap_texts (c : convention) (root : Element) : list str :=
  map (fun elem => _extract_text (Some elem)) (sitemap_locs c root).

(** The [<url>] elements below the root. *)
Definition url_entries (c : convention) (root : Element) : list Element :=
  filter (has_tag (qname c (py "url"))) (descendants root).

(** The first child [<local>] of an entry. *)
Definition child (c : convention) (local : str) (e : Element) : option Element :=
  head (filter (has_tag (qname c local)) (children e)).

Definition loc_text (c : convention) (e : Element) : str :=
  _extract_text (child c (py "loc") e).

Definition record_of (c : convention) (source : str) (e : Element) : URLRecord :=
  {| url := loc_text c e;
     last_modified := _extract_text (child c (py "lastmod") e);
     source_sitemap := source |}.

(** What one [<url>] entry contributes: nothing without a usable [<loc>],
    one record otherwise. *)
Definition entry_records (c : convention) (source : str) (e : Element)
  : list URLRecord :=
  if truthy (loc_text c e) then [record_of c source e] else [].

(** The records that one query of [_extract_url_data] appends. *)
Definition pass_records (c : convention) (root : Element) (source : str)
  : list URLRecord :=
  flat_map (entry_records c source) (url_entries c root).

(** The child URLs that [_extract_sitemap_urls] returns. *)
Definition index_urls (root : Element) : list str :=
  filter truthy (if truthy (sitemap_texts Namespaced root)
                 then sitemap_texts Namespaced root
                 else sitemap_texts Bare root).

(** The convention whose records [_extract_url_data] returns. *)
Definition used_convention (root : Element) (source : str) : convention :=
  if truthy (pass_records Namespaced root source) then Namespaced else Bare.

Definition whitespace_only (t : str) : bool := forallb isspace t.

(** The text of an optional element is missing, empty or all whitespace. *)
Definition no_text (element : option Element) : Prop :=
  match element with
  | None => True
  | Some e =>
      match text e with
      | None => True
      | Some t => whitespace_only t = true
      end
  end.

(** The crawler's own test for an absolute URL. *)
Definition is_absolute (u : str) : bool := startswith (py "http") u.

(** Putting every tag of a tree that has no namespace into the sitemap
    namespace: what a declaration of the default namespace on the root does
    to a document in which no other element carries a declaration. *)
Definition qualify_tag (t : str) : str :=
  if startswith (py "{") t then t else qname Namespaced t.

Fixpoint declare_namespace (e : Element) : Element :=
  {| tag := qualify_tag (tag e);
     text := text e;
     children := map declare_namespace (children e) |}.

(** Some element of the tree is in the sitemap namespace. *)
Fixpoint mentions_namespace (e : Element) : bool :=
  startswith (qname Namespaced []) (tag e) || existsb mentions_namespace (children e).

(** The element itself is outside the sitemap namespace. *)
Definition clean (e : Element) : Prop :=
  startswith (qname Namespaced []) (tag e) = false.

(** A document as it is written, before the parser names its elements: an
    element has a name without prefix and may carry a declaration of the
    default namespace ([xmlns="uri"]; [xmlns=""], the empty URI, takes the
    default namespace away again).  Prefixed names are outside this
    model. *)
Local Unset Elimination Schemes.
Inductive Markup : Type :=
  mkMarkup { name : str; xmlns : option str; body : option str; nested : list Markup }.
Local Set Elimination Schemes.

(** How the parser tags the elements: a name is in the default namespace
    of the nearest declaration around it, the element's own included, and
    has no namespace when there is none or when that one is empty. *)
Fixpoint parse_in (scope : str) (m : Markup) : Element :=
  let ns := match xmlns m with Some uri => uri | None => scope end in
  {| tag := if truthy ns then py "{" ++ ns ++ py "}" ++ name m else name m;
     text := body m;
     children := map (parse_in ns) (nested m) |}.

Definition parse (m : Markup) : Element := parse_in [] m.

(** The document with a given declaration, or none, on its root element and
    all else as it is. *)
Definition with_root_xmlns (d : option str) (m : Markup) : Markup :=
  {| name := name m; xmlns := d; body := body m; nested := nested m |}.

Definition declared (m : Markup) : Markup := with_root_xmlns (Some NS_URI) m.

Definition undeclared (m : Markup) : Markup := with_root_xmlns None m.

(** Neither the element nor anything below it carries a declaration. *)
Fixpoint no_declaration (m : Markup) : bool :=
  match xmlns m with
  | None => forallb no_declaration (nested m)
  | Some _ => false
  end.

(** No name starts with a brace (an XML name contains none). *)
Fixpoint plain_names (m : Markup) : bool :=
  negb (startswith (py "{") (name m)) && forallb plain_names (nested m).



(** The prefix and the namespace map that the crawler passes along with the
    queries of a convention. *)
Definition xpath_prefix (c : convention) : str :=
  match c with Namespaced => py "ns:" | Bare => [] end.

Definition xpath_namespaces (c : convention) : ElementPath.nsmap :=
  match c with Namespaced => SITEMAP_NS | Bare => [] end.

Definition sitemap_xpath (c : convention) : str :=
  match c with
  | Namespaced => py ".//ns:sitemap/ns:loc"
  | Bare => py ".//sitemap/loc"
  end.

Definition url_xpath (c : convention) : str :=
  match c with Namespaced => py ".//ns:url" | Bare => py ".//url" end.

(** The fetches and the sleeps among some events. *)
Definition requests (evs : list event) : list str :=
  flat_map (fun ev => match ev with HttpGet u _ => [u] | _ => [] end) evs.

Definition sleeps (evs : list event) : list float :=
  flat_map (fun ev => match ev with Slept d => [d] | _ => [] end) evs.

Section Fetching.
Context {E : External}.

(** The exceptions that the handler of [_fetch_xml] catches. *)
Definition caught (e : exn) : bool :=
  match e with
  | RequestException _ | ParseError _ => true
  | _ => false
  end.

(** What the statements of [_fetch_xml] under [try] come to once the request
    has been answered: the status check, the sleep, the parse. *)
Definition fetch_body (self : SitemapCrawler) (o : Result Response) : Result Element :=
  response <- o ;;
  match http_error response with
  | Some msg => Raise (RequestException msg)
  | None =>
      match sleep_error (delay self) with
      | Some e => Raise e
      | None => fromstring (content response)
      end
  end.

(** The document that the answer to a request leads to, if any. *)
Definition document_of (self : SitemapCrawler) (o : Result Response) : option Element :=
  match fetch_body self o with
  | Ok root => Some root
  | Raise _ => None
  end.

(** What one fetch returns or raises. *)
Definition fetch_result (self : SitemapCrawler) (o : Result Response)
  : Result (option Element) :=
  match fetch_body self o with
  | Ok root => Ok (Some root)
  | Raise e => if caught e then Ok None else Raise e
  end.

Definition error_line (u msg : str) : event :=
  Printed (py "Error processing " ++ u ++ py ": " ++ msg).

(** The events of one fetch that follow its request: the sleep, if the
    response passed the status check, and the error line, if an exception
    was caught. *)
Definition after_request (self : SitemapCrawler) (u : str) (o : Result Response)
  : list event :=
  match o with
  | Ok response =>
      match http_error response with
      | None => [Slept (delay self)]
      | Some _ => []
      end
  | Raise _ => []
  end
  ++ match fetch_body self o with
     | Ok _ => []
     | Raise e => if caught e then [error_line u (exn_message e)] else []
     end.

(** The ways a fetch fails: the request raises (no connection, timeout,
    unusable URL), the status check raises, or the body does not parse,
    each time with an exception that [_fetch_xml] catches. *)
Inductive fetch_failure (self : SitemapCrawler) : Result Response -> Prop :=
| transport_failure (e : exn) :
    caught e = true -> fetch_failure self (Raise e)
| status_failure (response : Response) (msg : str) :
    http_error response = Some msg -> fetch_failure self (Ok response)
| parse_failure (response : Response) (e : exn) :
    http_error response = None ->
    sleep_error (delay self) = None ->
    fromstring (content response) = Raise e ->
    caught e = true ->
    fetch_failure self (Ok response).

(** A URL of a document resolves to an absolute URL (nothing raises). *)
Definition resolves (self : SitemapCrawler) (child_url abs_url : str) : Prop :=
  _make_absolute_url self child_url = Ok abs_url.


(** What the children of an index contribute, one after the other, from a
    state of the network on: a child whose fetch fails adds nothing and the
    next child is fetched; a fetched child adds its records. *)
Inductive contributions (self : SitemapCrawler)
  : list str -> Net -> list URLRecord -> Net -> Prop :=
| contributions_done (n : Net) : contributions self [] n [] n
| contributions_failed (child_url abs_url : str) (rest : list str)
    (n n' n'' : Net) (o : Result Response) (data : list URLRecord) :
    _make_absolute_url self child_url = Ok abs_url ->
    session_get n abs_url 30 = (o, n') ->
    fetch_failure self o ->
    contributions self rest n' data n'' ->
    contributions self (child_url :: rest) n data n''
| contributions_fetched (child_url abs_url : str) (rest : list str)
    (n n' n'' : Net) (o : Result Response) (doc : Element)
    (records data : list URLRecord) :
    _make_absolute_url self child_url = Ok abs_url ->
    session_get n abs_url 30 = (o, n') ->
    document_of self o = Some doc ->
    _extract_url_data doc (last_item (split (ch "/") abs_url)) = Ok records ->
    contributions self rest n' data n'' ->
    contributions self (child_url :: rest) n (records ++ data) n''.

End Fetching.

(** The order of strings in words: code point by code point, a prefix
    before its extensions. *)
Inductive lex_le : str -> str -> Prop :=
| lex_le_nil (b : str) : lex_le [] b
| lex_le_lt (x y : char) (a b : str) : (x < y)%N -> lex_le (x :: a) (y :: b)
| lex_le_eq (x : char) (a b : str) : lex_le a b -> lex_le (x :: a) (x :: b).

(** [segment] is what follows the last separator of [u] (all of [u] when
    it has none): for [/], the final path segment of a URL. *)
Definition final_segment (sep : char) (u segment : str) : Prop :=
  ~ In sep segment
  /\ exists before,
       u = before ++ segment /\ (before = [] \/ exists p, before = p ++ [sep]).

(** The path of a URL in the sense of RFC 3986, as
    [urllib.parse.urlsplit] cuts it out: the URL without its fragment, its
    query, its scheme and its network location. *)
Definition scheme_char (c : char) : bool :=
  ((0x41 <=? c) && (c <=? 0x5A) || (0x61 <=? c) && (c <=? 0x7A)
   || (0x30 <=? c) && (c <=? 0x39) || existsb (N.eqb c) (py "+-."))%N.

Definition is_alpha (c : char) : bool :=
  ((0x41 <=? c) && (c <=? 0x5A) || (0x61 <=? c) && (c <=? 0x7A))%N.

Definition without_scheme (u : str) : str :=
  let (scheme, rest) := split_once (ch ":") u in
  match scheme with
  | c :: _ =>
      if contains (py ":") u && is_alpha c && forallb scheme_char scheme
      then rest else u
  | [] => u
  end.

Fixpoint from_slash (u : str) : str :=
  match u with
  | [] => []
  | c :: u' => if N.eqb c (ch "/") then u else from_slash u'
  end.

Definition url_path (u : str) : str :=
  let u := fst (split_once (ch "#") u) in
  let u := fst (split_once (ch "?") u) in
  let u := without_scheme u in
  match u with
  | 47 :: 47 :: after_slashes => from_slash after_slashes
  | _ => u
  end%N.

(** The final path segment of a URL. *)
Definition final_path_segment (u : str) : str :=
  last_item (split (ch "/") (url_path u)).

(** The order of the elements of a list by their keys. *)
Definition key_le {A : Type} (key : A -> str) (a b : A) : Prop :=
  lex_le (key a) (key b).

(** ** Sample documents and worlds *)

Definition element (t : str) (kids : list Element) : Element :=
  {| tag := t; text := None; children := kids |}.

Definition leaf (t : str) (txt : str) : Element :=
  {| tag := t; text := Some txt; children := [] |}.

(** A namespaced sitemap whose only entry has a relative location. *)
Definition relative_urlset : Element :=
  element (qname Namespaced (py "urlset"))
    [element (qname Namespaced (py "url"))
       [leaf (qname Namespaced (py "loc")) (py "/about.html")]].

(** A sitemap that mixes the two conventions. *)
Definition mixed_urlset : Element :=
  element (py "urlset")
    [element (qname Namespaced (py "url"))
       [leaf (qname Namespaced (py "loc")) (py "https://ex.com/a")];
     element (py "url") [leaf (py "loc") (py "https://ex.com/b")]].

(** A sitemap without the namespace declaration; its second entry has no
    location. *)
Definition bare_urlset : Element :=
  element (py "urlset")
    [element (py "url")
       [leaf (py "loc") (py " https://ex.com/a "); leaf (py "lastmod") (py "2024-01-01")];
     element (py "url") [leaf (py "lastmod") (py "2024-02-02")]].

(** Documents as written: the sitemap [bare_urlset], and a sitemap whose
    second entry takes the default namespace away. *)
Definition written (n : str) (kids : list Markup) : Markup :=
  {| name := n; xmlns := None; body := None; nested := kids |}.

Definition written_text (n : str) (txt : str) : Markup :=
  {| name := n; xmlns := None; body := Some txt; nested := [] |}.

Definition bare_urlset_text : Markup :=
  written (py "urlset")
    [written (py "url")
       [written_text (py "loc") (py " https://ex.com/a ");
        written_text (py "lastmod") (py "2024-01-01")];
     written (py "url") [written_text (py "lastmod") (py "2024-02-02")]].

Definition ex_index_text : Markup :=
  written (py "sitemapindex")
    [written (py "sitemap") [written_text (py "loc") (py "https://ex.com/s0.xml")];
     written (py "sitemap") [written_text (py "loc") (py "https://ex.com/s1.xml")]].

Definition undeclaring_urlset_text : Markup :=
  written (py "urlset")
    [written (py "url") [written_text (py "loc") (py "https://ex.com/a")];
     {| name := py "url"; xmlns := Some []; body := None;
        nested := [written_text (py "loc") (py "https://ex.com/b")] |}].

(** An index whose namespaced entry has a blank location, next to a bare
    entry with a location. *)
Definition blank_index : Element :=
  element (py "sitemapindex")
    [element (qname Namespaced (py "sitemap"))
       [leaf (qname Namespaced (py "loc")) (py "  ")];
     element (py "sitemap") [leaf (py "loc") (py "https://ex.com/s1.xml")]].

(** The same for a sitemap. *)
Definition blank_urlset : Element :=
  element (py "urlset")
    [element (qname Namespaced (py "url"))
       [leaf (qname Namespaced (py "loc")) (py "  ")];
     element (py "url") [leaf (py "loc") (py "https://ex.com/b")]].

(** An index of two children, and the second child. *)
Definition ex_index : Element :=
  element (py "sitemapindex")
    [element (py "sitemap") [leaf (py "loc") (py "https://ex.com/s0.xml")];
     element (py "sitemap") [leaf (py "loc") (py "https://ex.com/s1.xml")]].

Definition ex_s1 : Element :=
  element (py "urlset")
    [element (py "url")
       [leaf (py "loc") (py "https://ex.com/a"); leaf (py "lastmod") (py "2024-01-01")]].

Fixpoint bytes_eqb (a b : bytes) : bool :=
  match a, b with
  | [], [] => true
  | x :: a', y :: b' => Byte.eqb x y && bytes_eqb a' b'
  | _, _ => false
  end.

(** The answers of a site, by URL; an answer is told the URL it is for. *)
Definition site := list (str * (str -> Result Response)).

Fixpoint page_at (u : str) (pages : site) : Result Response :=
  match pages with
  | [] => Raise (RequestException (py "Connection refused"))
  | (u', o) :: pages' => if Py.eqb u' u then o u else page_at u pages'
  end.

Fixpoint document_at (body : bytes) (documents : list (bytes * Result Element))
  : Result Element :=
  match documents with
  | [] => Raise (ParseError (py "syntax error: line 1, column 0"))
  | (body', doc) :: documents' =>
      if bytes_eqb body' body then doc else document_at body documents'
  end.

Definition no_scheme (u : str) : str :=
  py "Invalid URL '" ++ u ++ py "': No scheme supplied. Perhaps you meant https://"
  ++ u ++ py "?".

(** A world of fixed pages: each URL has one answer, each body one reading;
    resolving against a base URL is not provided. *)
Definition static_site (pages : site)
  (documents : list (bytes * Result Element)) : External :=
  {| Net := unit;
     adapter_send := fun n u _ => (page_at u pages, n);
     refusal := no_scheme;
     fromstring := fun body => document_at body documents;
     urljoin_resolve := fun _ _ => Fails (py "no base URL in this world") |}.

Definition response (status : N) (phrase : str) (body : string) (u : str)
  : Response :=
  {| status_code := status; reason := phrase; response_url := u;
     content := list_byte_of_string body |}.

Definition answer (status : N) (phrase : str) (body : string) (u : str)
  : Result Response :=
  Ok (response status phrase body u).

Definition page (body : string) : str -> Result Response :=
  answer 200 (py "OK") body.

Definition not_found : str -> Result Response :=
  answer 404 (py "Not Found") "".

(** No page at all: every request fails. *)
Definition offline : External := static_site [] [].

(** [https://ex.com]: the index, a first child that is missing, and the
    second child. *)
Definition ex_com : External :=
  static_site
    [(py "https://ex.com/sitemap_index.xml", page "index");
     (py "https://ex.com/s0.xml", not_found);
     (py "https://ex.com/s1.xml", page "s1")]
    [(list_byte_of_string "index", Ok ex_index); (list_byte_of_string "s1", Ok ex_s1)].

(** An index with one child. *)
Definition one_child_index : Element :=
  element (py "sitemapindex")
    [element (py "sitemap") [leaf (py "loc") (py "https://ex.com/s1.xml")]].

(** A site whose entry document is in an encoding that the parser does not
    support. *)
Definition multibyte_com : External :=
  static_site
    [(py "https://ex.com/sitemap_index.xml", page "gbk")]
    [(list_byte_of_string "gbk",
      Raise (ValueError (py "multi-byte encodings are not supported")))].

(** A site that serves its index with the status 300. *)
Definition choices_com : External :=
  static_site
    [(py "https://ex.com/sitemap_index.xml",
      answer 300 (py "Multiple Choices") "index");
     (py "https://ex.com/s1.xml", page "s1")]
    [(list_byte_of_string "index", Ok one_child_index);
     (list_byte_of_string "s1", Ok ex_s1)].


(** A site whose entry document is the sitemap with the relative location. *)
Definition relative_site : External :=
  static_site [(py "https://ex.com/sitemap.xml", page "urlset")]
              [(list_byte_of_string "urlset", Ok relative_urlset)].

(** An index whose child URL carries a query string, and the child. *)
Definition shop_index : Element :=
  element (qname Namespaced (py "sitemapindex"))
    [element (qname Namespaced (py "sitemap"))
       [leaf (qname Namespaced (py "loc"))
             (py "https://shop.com/sitemap_products_1.xml?from=1&to=2")]].

Definition shop_products : Element :=
  element (qname Namespaced (py "urlset"))
    [element (qname Namespaced (py "url"))
       [leaf (qname Namespaced (py "loc")) (py "https://shop.com/products/p")]].

Definition shop_com : External :=
  static_site
    [(py "https://shop.com/sitemap.xml", page "index");
     (py "https://shop.com/sitemap_products_1.xml?from=1&to=2", page "products")]
    [(list_byte_of_string "index", Ok shop_index);
     (list_byte_of_string "products", Ok shop_products)].

Definition start (E : External) (n : @Net E) : @World E :=
  {| net := n; trace := [] |}.

(** The crawler that [main] builds. *)
Definition main_crawler : SitemapCrawler := __init__ (py "") default_delay.

Definition record (u : string) : URLRecord :=
  {| url := py u; last_modified := []; source_sitemap := py "s.xml" |}.

(** ** print_statistics and main *)

(** A Python dict from strings to counts, in insertion order. *)
Definition dict := list (str * nat).

(** [d.get(k, default)] *)
Fixpoint dict_get (d : dict) (k : str) (default : nat) : nat :=
  match d with
  | [] => default
  | (k', v) :: d' => if Py.eqb k' k then v else dict_get d' k default
  end.

(** [d[k] = v]: the value of an existing key is replaced where it stands,
    a new key comes last. *)
Fixpoint dict_set (d : dict) (k : str) (v : nat) : dict :=
  match d with
  | [] => [(k, v)]
  | (k', v') :: d' =>
      if Py.eqb k' k then (k', v) :: d' else (k', v') :: dict_set d' k v
  end.

(** [a < b] on the pairs of [d.items()]: by key, then by count. *)
Definition item_ltb (a b : str * nat) : bool :=
  Py.ltb (fst a) (fst b) || (Py.eqb (fst a) (fst b) && Nat.ltb (snd a) (snd b)).

(** [sorted(l)] under a given [<]: the stable sort. *)
Fixpoint insert_lt {A : Type} (lt : A -> A -> bool) (x : A) (l : list A) : list A :=
  match l with
  | [] => [x]
  | y :: l' => if lt y x then y :: insert_lt lt x l' else x :: l
  end.

Definition sorted_lt {A : Type} (lt : A -> A -> bool) (l : list A) : list A :=
  fold_right (insert_lt lt) [] l.

(** A line break inside a printed text. *)
Definition newline : str := [10%N].

Definition BASE_URL : str := py "".
Definition SITEMAP_INDEX_URL : str := py "sitemap_index.xml".
Definition OUTPUT_FILE : str := py "extracted_urls.csv".

Section Statistics.
Context {E : External}.

(** [urlparse(url).netloc] of [urllib.parse]: the network location, or a
    [ValueError] (brackets that do not match, for one). *)
Variable urlparse_netloc : str -> outcome str.

(** The first counting loop of [print_statistics]. *)
Fixpoint count_domains (url_data : list URLRecord) (domains : dict) : Result dict :=
  match url_data with
  | [] => Ok domains
  | item :: url_data' =>
      domain <- raising ValueError (urlparse_netloc (url item)) ;;
      count_domains url_data' (dict_set domains domain (dict_get domains domain 0 + 1))
  end.

(** The second counting loop of [print_statistics]. *)
Fixpoint count_sources (url_data : list URLRecord) (sources : dict) : dict :=
  match url_data with
  | [] => sources
  | item :: url_data' =>
      let source := source_sitemap item in
      count_sources url_data' (dict_set sources source (dict_get sources source 0 + 1))
  end.

Definition breakdown_line (item : str * nat) : str :=
  py "  " ++ fst item ++ py ": " ++ str_of_nat (snd item) ++ py " URLs".

(** The two printing loops of [print_statistics]. *)
Fixpoint print_breakdown (items : list (str * nat)) : M unit :=
  match items with
  | [] => ret tt
  | item :: items' => print (breakdown_line item) ;; print_breakdown items'
  end.

(** Print crawling statistics. *)
Definition print_statistics (self : SitemapCrawler) (url_data : list URLRecord)
  : M unit :=
  if negb (truthy url_data) then ret tt
  else
    print (newline ++ py "Crawling Statistics:") ;;
    print (py "Total URLs: " ++ str_of_nat (len url_data)) ;;
    domains <- lift (count_domains url_data []) ;;
    print (newline ++ py "Domain breakdown:") ;;
    print_breakdown (sorted_lt item_ltb domains) ;;
    let sources := count_sources url_data [] in
    print (newline ++ py "Source sitemap breakdown:") ;;
    print_breakdown (sorted_lt item_ltb sources).

(** Main execution function. *)
Definition main : M unit :=
  let crawler := __init__ BASE_URL 1.0 in
  url_data <- crawl_sitemap_index crawler SITEMAP_INDEX_URL ;;
  save_to_csv crawler url_data OUTPUT_FILE ;;
  print_statistics crawler url_data.

End Statistics.

(** ** More vocabulary *)

(** The files written and the lines printed among some events. *)
Definition writes (evs : list event) : list (str * list (list str)) :=
  flat_map (fun ev => match ev with CsvWritten f rows => [(f, rows)] | _ => [] end) evs.

Definition printed (evs : list event) : list str :=
  flat_map (fun ev => match ev with Printed line => [line] | _ => [] end) evs.

(** Events without a file, whose sleeps all last the crawler's delay and
    are no more than the requests. *)
Definition paced (self : SitemapCrawler) (evs : list event) : Prop :=
  Forall (fun d => d = delay self) (sleeps evs)
  /\ List.length (sleeps evs) <= List.length (requests evs)
  /\ writes evs = [].

(** The text has no whitespace at either end. *)
Definition stripped (s : str) : Prop :=
  match s with
  | [] => True
  | c :: _ => isspace c = false /\ isspace (last s c) = false
  end.

(** How often a key occurs in a list of keys. *)
Fixpoint occurrences (k : str) (keys : list str) : nat :=
  match keys with
  | [] => 0
  | k' :: keys' => (if Py.eqb k' k then 1 else 0) + occurrences k keys'
  end.

(** The order of the pairs of a breakdown: ascending keys. *)
Definition item_le (a b : str * nat) : Prop := lex_le (fst a) (fst b).

(** [k] is the network location that [urlparse] finds in the record's URL. *)
Definition netloc_is (urlparse_netloc : str -> outcome str) (r : URLRecord)
  (k : str) : Prop :=
  urlparse_netloc (url r) = Returns k.

(** Counting keys into a dict, as both loops of [print_statistics] do. *)
Definition tally (keys : list str) (d : dict) : dict :=
  fold_left (fun d k => dict_set d k (dict_get d k 0 + 1)) keys d.

(** [items] is the breakdown of [keys]: one pair per distinct key, with the
    number of its occurrences, in ascending order of the keys. *)
Definition breakdown_of (keys : list str) (items : list (str * nat)) : Prop :=
  Sorted item_le items
  /\ NoDup (map fst items)
  /\ (forall k c, In (k, c) items <-> In k keys /\ c = occurrences k keys)
  /\ list_sum (map snd items) = List.length keys.

(** ** More sample worlds *)

(** The network location of a URL, for the sample worlds: what stands
    between [//] and the next [/], [?] or [#]; brackets must match. *)
Fixpoint until_delimiter (s : str) : str :=
  match s with
  | [] => []
  | c :: s' => if existsb (N.eqb c) (py "/?#") then [] else c :: until_delimiter s'
  end.

Definition sample_netloc (u : str) : outcome str :=
  match without_scheme u with
  | 47 :: 47 :: rest =>
      let netloc := until_delimiter rest in
      if Bool.eqb (contains (py "[") netloc) (contains (py "]") netloc)
      then Returns netloc else Fails (py "Invalid IPv6 URL")
  | _ => Returns []
  end%N.




(** An index that also has a [<url>] entry of its own, and a child that is
    itself an index. *)
Definition nested_index : Element :=
  element (py "sitemapindex")
    [element (py "url") [leaf (py "loc") (py "https://ex.com/own")];
     element (py "sitemap") [leaf (py "loc") (py "https://ex.com/inner.xml")];
     element (py "sitemap") [leaf (py "loc") (py "https://ex.com/inner.xml")]].

Definition inner_index : Element :=
  element (py "sitemapindex")
    [element (py "sitemap") [leaf (py "loc") (py "https://ex.com/s1.xml")];
     element (py "url") [leaf (py "loc") (py " https://ex.com/a ")]].

Definition nested_com : External :=
  static_site
    [(py "https://ex.com/sitemap_index.xml", page "index");
     (py "https://ex.com/inner.xml", page "inner");
     (py "https://ex.com/s1.xml", page "s1")]
    [(list_byte_of_string "index", Ok nested_index);
     (list_byte_of_string "inner", Ok inner_index);
     (list_byte_of_string "s1", Ok ex_s1)].

(** Records of two domains and two sources. *)
Definition sample_records : list URLRecord :=
  [{| url := py "https://b.com/x"; last_modified := []; source_sitemap := py "s2.xml" |};
   {| url := py "https://a.com/y"; last_modified := []; source_sitemap := py "s1.xml" |};
   {| url := py "https://b.com/z"; last_modified := []; source_sitemap := py "s1.xml" |}].

(** * Properties *)

(** ** Strings *)

Lemma eqb_eq (a b : str) : Py.eqb a b = true <-> a = b.
Proof.
  revert b; induction a as [|x a IH]; intros [|y b]; simpl;
    try (split; congruence).
  rewrite andb_true_iff, N.eqb_eq, IH. split.
  - intros [-> ->]; reflexivity.
  - intros H; injection H; auto.
Qed.

Lemma eqb_refl (a : str) : Py.eqb a a = true.
Proof. apply eqb_eq; reflexivity. Qed.

Lemma truthy_false {A : Type} (l : list A) : truthy l = false <-> l = [].
Proof. destruct l; simpl; split; congruence. Qed.

Lemma truthy_true {A : Type} (l : list A) : truthy l = true <-> l <> [].
Proof. destruct l; simpl; split; congruence. Qed.

Lemma lstrip_nil (s : str) : lstrip s = [] <-> whitespace_only s = true.
Proof.
  induction s as [|c s IH]; simpl.
  - tauto.
  - destruct (isspace c); simpl; [exact IH | split; congruence].
Qed.

Lemma lstrip_whitespace (s : str) : whitespace_only s = true -> lstrip s = [].
Proof. apply lstrip_nil. Qed.

Lemma lstrip_head (s : str) :
  match lstrip s with [] => True | c :: _ => isspace c = false end.
Proof.
  induction s as [|c s IH]; simpl; [exact I|].
  destruct (isspace c) eqn:Hc; [exact IH | exact Hc].
Qed.

Lemma whitespace_only_rev (s : str) : whitespace_only (rev s) = whitespace_only s.
Proof.
  unfold whitespace_only. induction s as [|c s IH]; simpl; [reflexivity|].
  rewrite forallb_app, IH; simpl. rewrite andb_true_r. apply andb_comm.
Qed.

Lemma rstrip_nil (s : str) : rstrip s = [] <-> whitespace_only s = true.
Proof.
  unfold rstrip. rewrite <- whitespace_only_rev, <- lstrip_nil.
  split; intros H.
  - apply (f_equal (@rev char)) in H. rewrite rev_involutive in H. exact H.
  - rewrite H; reflexivity.
Qed.

Lemma whitespace_only_lstrip (s : str) :
  whitespace_only (lstrip s) = whitespace_only s.
Proof.
  induction s as [|c s IH]; simpl; [reflexivity|].
  destruct (isspace c) eqn:Hc; simpl; rewrite ?Hc; [exact IH | reflexivity].
Qed.

(** [strip] returns the empty string exactly on whitespace-only text. *)
Lemma strip_nil (s : str) : strip s = [] <-> whitespace_only s = true.
Proof. unfold strip. rewrite rstrip_nil. rewrite whitespace_only_lstrip. tauto. Qed.

Lemma extract_text_empty (element : option Element) :
  _extract_text element = [] <-> no_text element.
Proof.
  destruct element as [e|]; simpl; [|tauto].
  destruct (text e) as [t|]; [|tauto].
  destruct t as [|c t]; simpl truthy; cbv iota.
  - simpl. tauto.
  - apply strip_nil.
Qed.

(** ** The queries of the crawler, evaluated *)

Lemma iterfind_compiled (elem : Element) (path : str)
  (namespaces : ElementPath.nsmap) (toks : list ElementPath.token)
  (sels : list ElementPath.selector) :
  startswith (py "/") (rev path) = false ->
  startswith (py "/") path = false ->
  ElementPath.scan path [] = Ok toks ->
  truthy toks = true ->
  ElementPath.compile namespaces toks = Ok sels ->
  ElementPath.iterfind elem path namespaces
  = Ok (fold_left (fun result sel => ElementPath.select sel result) sels [elem]).
Proof.
  intros Hend Habs Hscan Htoks Hcomp. unfold ElementPath.iterfind.
  rewrite Hend, Habs, Hscan. simpl.
  destruct toks; [discriminate|]. rewrite Hcomp. reflexivity.
Qed.

Ltac run_query :=
  unfold findall, find;
  erewrite iterfind_compiled;
  [ | vm_compute; reflexivity ..];
  cbn [fold_left ElementPath.select flat_map bind Monad_Result];
  rewrite ?app_nil_r.

Lemma findall_sitemap_locs (c : convention) (root : Element) :
  findall root (sitemap_xpath c) (xpath_namespaces c) = Ok (sitemap_locs c root).
Proof. destruct c; run_query; reflexivity. Qed.

Lemma findall_url_entries (c : convention) (root : Element) :
  findall root (url_xpath c) (xpath_namespaces c) = Ok (url_entries c root).
Proof. destruct c; run_query; reflexivity. Qed.

Lemma find_loc (c : convention) (e : Element) :
  find e (xpath_prefix c ++ py "loc") (xpath_namespaces c) = Ok (child c (py "loc") e).
Proof. destruct c; run_query; reflexivity. Qed.

Lemma find_lastmod (c : convention) (e : Element) :
  find e (xpath_prefix c ++ py "lastmod") (xpath_namespaces c)
  = Ok (child c (py "lastmod") e).
Proof. destruct c; run_query; reflexivity. Qed.

(** ** The two extraction operations, in closed form *)

Lemma url_entries_loop_eq (c : convention) (source : str) (url_elems : list Element) :
  forall url_data,
    url_entries_loop url_elems (xpath_prefix c) (xpath_namespaces c) source url_data
    = Ok (url_data ++ flat_map (entry_records c source) url_elems).
Proof.
  induction url_elems as [|e url_elems IH]; intros url_data.
  - simpl. rewrite app_nil_r. reflexivity.
  - cbn [url_entries_loop flat_map].
    rewrite find_loc. cbn [bind Monad_Result].
    fold (loc_text c e).
    assert (Hentry : entry_records c source e
                     = if truthy (loc_text c e) then [record_of c source e] else [])
      by reflexivity.
    rewrite Hentry.
    destruct (truthy (loc_text c e)); cbn [negb].
    + rewrite find_lastmod. cbn [bind Monad_Result].
      rewrite IH, <- app_assoc. reflexivity.
    + rewrite IH. reflexivity.
Qed.

Lemma url_data_loop_step (c : convention) (rest : list str) (root : Element)
  (source : str) (queried : list str) :
  url_data_loop root source (url_xpath c :: rest) [] queried
  = if truthy (pass_records c root source)
    then Ok (queried ++ [url_xpath c], pass_records c root source)
    else url_data_loop root source rest [] (queried ++ [url_xpath c]).
Proof.
  cbn [url_data_loop].
  replace (if contains (py "ns:") (url_xpath c) then SITEMAP_NS else [])
    with (xpath_namespaces c) by (destruct c; reflexivity).
  replace (if contains (py "ns:") (url_xpath c) then py "ns:" else [])
    with (xpath_prefix c) by (destruct c; reflexivity).
  rewrite findall_url_entries. cbn [bind Monad_Result].
  rewrite url_entries_loop_eq. cbn [bind Monad_Result app].
  fold (pass_records c root source).
  destruct (pass_records c root source) eqn:Hp; reflexivity.
Qed.

Lemma url_data_loop_eq (root : Element) (source : str) :
  url_data_loop root source url_xpaths [] []
  = Ok (match used_convention root source with
        | Namespaced => [url_xpath Namespaced]
        | Bare => [url_xpath Namespaced; url_xpath Bare]
        end,
        pass_records (used_convention root source) root source).
Proof.
  change url_xpaths with [url_xpath Namespaced; url_xpath Bare].
  rewrite url_data_loop_step. unfold used_convention.
  destruct (truthy (pass_records Namespaced root source)); [reflexivity|].
  rewrite url_data_loop_step.
  destruct (pass_records Bare root source) eqn:Hp; reflexivity.
Qed.

Lemma extract_url_data_eq (root : Element) (source : str) :
  _extract_url_data root source
  = Ok (pass_records (used_convention root source) root source).
Proof. unfold _extract_url_data. rewrite url_data_loop_eq. reflexivity. Qed.

Lemma sitemap_urls_loop_step (c : convention) (rest : list str) (root : Element)
  (queried : list str) :
  sitemap_urls_loop root (sitemap_xpath c :: rest) [] queried
  = if truthy (sitemap_texts c root)
    then Ok (queried ++ [sitemap_xpath c], sitemap_texts c root)
    else sitemap_urls_loop root rest [] (queried ++ [sitemap_xpath c]).
Proof.
  cbn [sitemap_urls_loop].
  replace (if contains (py "ns:") (sitemap_xpath c) then SITEMAP_NS else [])
    with (xpath_namespaces c) by (destruct c; reflexivity).
  rewrite findall_sitemap_locs. cbn [bind Monad_Result app].
  fold (sitemap_texts c root).
  destruct (sitemap_texts c root) eqn:Ht; reflexivity.
Qed.

(** The convention whose texts [_extract_sitemap_urls] returns. *)
Lemma sitemap_urls_loop_eq (root : Element) :
  sitemap_urls_loop root sitemap_xpaths [] []
  = Ok (if truthy (sitemap_texts Namespaced root)
        then ([sitemap_xpath Namespaced], sitemap_texts Namespaced root)
        else ([sitemap_xpath Namespaced; sitemap_xpath Bare], sitemap_texts Bare root)).
Proof.
  change sitemap_xpaths with [sitemap_xpath Namespaced; sitemap_xpath Bare].
  rewrite sitemap_urls_loop_step.
  destruct (truthy (sitemap_texts Namespaced root)); [reflexivity|].
  rewrite sitemap_urls_loop_step.
  destruct (sitemap_texts Bare root) eqn:Ht; reflexivity.
Qed.

Lemma extract_sitemap_urls_eq (root : Element) :
  _extract_sitemap_urls root = Ok (index_urls root).
Proof.
  unfold _extract_sitemap_urls, index_urls. rewrite sitemap_urls_loop_eq.
  destruct (truthy (sitemap_texts Namespaced root)); reflexivity.
Qed.

(** ** Fetching *)

Section FetchProperties.
Context {E : External}.

Lemma bind_run {A B : Type} (c : M A) (k : A -> M B) (w : World) :
  (x <- c ;; k x) w
  = match c w with
    | (Ok a, w') => k a w'
    | (Raise e, w') => (Raise e, w')
    end.
Proof. reflexivity. Qed.

Lemma print_run (line : str) (w : World) :
  print line w = (Ok tt, {| net := net w; trace := trace w ++ [Printed line] |}).
Proof. reflexivity. Qed.

(** What [time.sleep] raises is of no class that [_fetch_xml] catches. *)
Lemma sleep_error_uncaught (seconds : float) (e : exn) :
  sleep_error seconds = Some e -> caught e = false.
Proof.
  unfold sleep_error.
  destruct (PrimFloat.is_nan seconds); [intros [= <-]; reflexivity|].
  destruct (negb _); [intros [= <-]; reflexivity|].
  destruct (PrimFloat.ltb seconds 0); [intros [= <-]; reflexivity | discriminate].
Qed.

Lemma sleep_run (seconds : float) (w : World) :
  sleep seconds w
  = (match sleep_error seconds with Some e => Raise e | None => Ok tt end,
     {| net := net w; trace := trace w ++ [Slept seconds] |}).
Proof.
  unfold sleep. rewrite bind_run. unfold emit at 1.
  destruct (sleep_error seconds); reflexivity.
Qed.

Lemma fetch_result_some (self : SitemapCrawler) (o : Result Response) (doc : Element) :
  fetch_result self o = Ok (Some doc) <-> document_of self o = Some doc.
Proof.
  unfold fetch_result, document_of.
  destruct (fetch_body self o) as [root|e].
  - split; intros [= ->]; reflexivity.
  - destruct (caught e); split; discriminate.
Qed.

Lemma fetch_result_none (self : SitemapCrawler) (o : Result Response) :
  fetch_result self o = Ok None <-> fetch_failure self o.
Proof.
  unfold fetch_result, fetch_body. split.
  - destruct o as [response|e]; cbn [bind Monad_Result].
    + destruct (http_error response) as [msg|] eqn:Hs.
      * intros _. eapply status_failure; eassumption.
      * destruct (sleep_error (delay self)) as [e|] eqn:Hd.
        -- rewrite (sleep_error_uncaught _ Hd). discriminate.
        -- destruct (fromstring (content response)) as [root|e] eqn:Hp; [discriminate|].
           destruct (caught e) eqn:Hc; [|discriminate].
           intros _. eapply parse_failure; eassumption.
    + destruct (caught e) eqn:Hc; [|discriminate].
      intros _. constructor. exact Hc.
  - intros [e Hc|response msg Hs|response e Hs Hd Hp Hc]; cbn [bind Monad_Result];
      rewrite ?Hs, ?Hd, ?Hp, ?Hc; reflexivity.
Qed.

(** A fetch that leads to no document has failed or has raised. *)
Lemma document_of_none (self : SitemapCrawler) (o : Result Response) :
  document_of self o = None <->
  fetch_failure self o \/ exists e, fetch_result self o = Raise e.
Proof.
  rewrite <- fetch_result_none. unfold document_of, fetch_result.
  destruct (fetch_body self o) as [root|e].
  - split; [discriminate | intros [H|[e H]]; discriminate].
  - destruct (caught e); split; intros _; try reflexivity.
    + left; reflexivity.
    + right; exists e; reflexivity.
Qed.

(** One fetch, whatever its outcome: a progress line, one request, the
    events of [after_request]; what it returns or raises is
    [fetch_result]. *)
Lemma fetch_xml_run (self : SitemapCrawler) (u : str) (w : World) :
  _fetch_xml self u w
  = (fetch_result self (fst (session_get (net w) u 30)),
     {| net := snd (session_get (net w) u 30);
        trace := trace w
                 ++ Printed (py "Fetching: " ++ u) :: HttpGet u 30
                 :: after_request self u (fst (session_get (net w) u 30)) |}).
Proof.
  unfold _fetch_xml, try_except. rewrite bind_run, print_run.
  rewrite bind_run. unfold get. cbn [net trace].
  unfold fetch_result, after_request, fetch_body.
  destruct (session_get (net w) u 30) as [[response|e] n];
    cbn [fst snd bind Monad_Result].
  - rewrite bind_run. unfold raise_for_status.
    destruct (http_error response) as [msg|]; cbn [lift caught].
    + rewrite bind_run, print_run. cbn [ret Monad_M net trace app].
      unfold error_line. rewrite <- !app_assoc. reflexivity.
    + cbn [ret Monad_M]. rewrite bind_run, sleep_run. cbn [net trace].
      destruct (sleep_error (delay self)) as [e|] eqn:Hd.
      * pose proof (sleep_error_uncaught _ Hd) as Hc. rewrite Hc.
        destruct e; try discriminate Hc;
          cbn [lift app]; rewrite <- !app_assoc; reflexivity.
      * rewrite bind_run. unfold lift at 1.
        destruct (fromstring (content response)) as [root|e].
        -- cbn [ret Monad_M app]. rewrite <- !app_assoc. reflexivity.
        -- destruct e; cbn [caught lift]; rewrite ?bind_run, ?print_run;
             cbn [ret Monad_M net trace app]; unfold error_line;
             rewrite <- !app_assoc; reflexivity.
  - destruct e; cbn [caught lift]; rewrite ?bind_run, ?print_run;
      cbn [ret Monad_M net trace app]; unfold error_line;
      rewrite <- !app_assoc; reflexivity.
Qed.

End FetchProperties.

(** ** Crawling *)

Lemma requests_app (evs evs' : list event) :
  requests (evs ++ evs') = requests evs ++ requests evs'.
Proof. apply flat_map_app. Qed.

Lemma sleeps_app (evs evs' : list event) :
  sleeps (evs ++ evs') = sleeps evs ++ sleeps evs'.
Proof. apply flat_map_app. Qed.

Section CrawlProperties.
Context {E : External}.
Variable self : SitemapCrawler.

Lemma requests_after_request (u : str) (o : Result Response) :
  requests (after_request self u o) = [].
Proof.
  unfold after_request. rewrite requests_app.
  assert (H1 : requests match o with
                        | Ok response =>
                            match http_error response with
                            | None => [Slept (delay self)]
                            | Some _ => []
                            end
                        | Raise _ => []
                        end = []).
  { destruct o as [response|e]; [|reflexivity].
    destruct (http_error response); reflexivity. }
  rewrite H1. destruct (fetch_body self o) as [root|e]; [reflexivity|].
  destruct (caught e); reflexivity.
Qed.

(** The loop over the children, when it returns: the records are those the
    children contribute, and the requests are the children's, in order. *)
Lemma crawl_children_run (sitemap_urls : list str) :
  forall (acc : list URLRecord) (w : World) (data : list URLRecord) (w' : World),
    crawl_children self sitemap_urls acc w = (Ok data, w') ->
    exists data' evs,
      data = acc ++ data'
      /\ contributions self sitemap_urls (net w) data' (net w')
      /\ trace w' = trace w ++ evs
      /\ Forall2 (resolves self) sitemap_urls (requests evs).
Proof.
  induction sitemap_urls as [|child rest IH]; intros acc w data w' Hrun.
  - injection Hrun as <- <-. exists [], []. rewrite !app_nil_r.
    repeat split; constructor.
  - cbn [crawl_children] in Hrun. rewrite bind_run in Hrun. unfold lift at 1 in Hrun.
    destruct (_make_absolute_url self child) as [a|e] eqn:Habs; [|discriminate].
    rewrite bind_run, fetch_xml_run in Hrun.
    destruct (session_get (net w) a 30) as [o n1] eqn:Hget. cbn [fst snd] in Hrun.
    destruct (fetch_result self o) as [[doc|]|e] eqn:Hres; [| |discriminate].
    + apply fetch_result_some in Hres.
      rewrite bind_run in Hrun. unfold lift at 1 in Hrun.
      rewrite extract_url_data_eq in Hrun.
      rewrite bind_run, print_run in Hrun. cbn [net trace] in Hrun.
      apply IH in Hrun. destruct Hrun as (data' & evs & -> & Hc & Htr & Hreq).
      cbn [net trace] in Hc, Htr.
      eexists; eexists. split; [symmetry; apply app_assoc|].
      split; [|split].
      * eapply contributions_fetched; try eassumption.
        apply extract_url_data_eq.
      * rewrite Htr, <- !app_assoc. reflexivity.
      * rewrite !requests_app. cbn [requests flat_map app].
        rewrite requests_after_request. cbn [app].
        constructor; assumption.
    + apply fetch_result_none in Hres.
      apply IH in Hrun. destruct Hrun as (data' & evs & -> & Hc & Htr & Hreq).
      cbn [net trace] in Hc, Htr.
      eexists; eexists. split; [reflexivity|]. split; [|split].
      * eapply contributions_failed; eassumption.
      * rewrite Htr, <- !app_assoc. reflexivity.
      * rewrite !requests_app. cbn [requests flat_map app].
        rewrite requests_after_request. cbn [app].
        constructor; assumption.
Qed.


(** A run of [crawl_sitemap_index] that returns: the entry URL resolved,
    one request for it, and then nothing more (the fetch failed, or the
    document is a flat sitemap) or the children in order. *)
Lemma crawl_sitemap_index_run (sitemap_index_url : str) (w : World)
  (data : list URLRecord) (w' : World) :
  crawl_sitemap_index self sitemap_index_url w = (Ok data, w') ->
  exists u0 evs,
    resolves self sitemap_index_url u0
    /\ trace w' = trace w ++ evs
    /\ match document_of self (fst (session_get (net w) u0 30)) with
       | None => data = [] /\ requests evs = [u0]
       | Some root =>
           if truthy (index_urls root)
           then exists rest,
                  requests evs = u0 :: rest
                  /\ Forall2 (resolves self) (index_urls root) rest
                  /\ contributions self (index_urls root)
                       (snd (session_get (net w) u0 30)) data (net w')
           else _extract_url_data root (py "sitemap_index.xml") = Ok data
                /\ requests evs = [u0]
       end.
Proof.
  unfold crawl_sitemap_index. rewrite bind_run. unfold lift at 1.
  destruct (_make_absolute_url self sitemap_index_url) as [u0|e] eqn:Habs;
    [|discriminate].
  rewrite bind_run, print_run, bind_run, fetch_xml_run. cbn [net trace].
  destruct (fetch_result self (fst (session_get (net w) u0 30)))
    as [[root|]|e] eqn:Hres; [| |discriminate].
  - apply fetch_result_some in Hres. rename Hres into Hdoc.
    rewrite bind_run. unfold lift at 1. rewrite extract_sitemap_urls_eq.
    destruct (truthy (index_urls root)) eqn:Hurls; cbn [negb].
    + rewrite bind_run, print_run. cbn [net trace]. intros Hrun.
      apply crawl_children_run in Hrun.
      destruct Hrun as (data' & evs & -> & Hc & Htr & Hreq).
      cbn [net trace app] in Hc, Htr.
      exists u0. eexists. split; [exact Habs|].
      split; [rewrite Htr, <- !app_assoc; reflexivity|].
      rewrite Hdoc, Hurls. exists (requests evs).
      rewrite !requests_app. cbn [requests flat_map app].
      rewrite requests_after_request. cbn [app].
      repeat split; assumption.
    + rewrite bind_run, print_run. unfold lift. rewrite extract_url_data_eq.
      intros Hrun. injection Hrun as <- <-. cbn [net trace].
      exists u0. eexists. split; [exact Habs|].
      split; [rewrite <- !app_assoc; reflexivity|].
      rewrite Hdoc, Hurls. split; [apply extract_url_data_eq|].
      rewrite !requests_app. cbn [requests flat_map app].
      rewrite requests_after_request. reflexivity.
  - assert (Hdoc : document_of self (fst (session_get (net w) u0 30)) = None).
    { apply document_of_none. left. apply fetch_result_none. exact Hres. }
    intros Hrun. injection Hrun as <- <-. cbn [net trace].
    exists u0. eexists. split; [exact Habs|].
    split; [rewrite <- !app_assoc; reflexivity|].
    rewrite Hdoc. split; [reflexivity|].
    cbn [requests flat_map app]. rewrite requests_after_request. reflexivity.
Qed.


End CrawlProperties.

(** ** Where records come from *)

Lemma pass_records_in (c : convention) (root : Element) (source : str) (r : URLRecord) :
  In r (pass_records c root source) ->
  exists e, In e (url_entries c root)
            /\ truthy (loc_text c e) = true
            /\ r = record_of c source e.
Proof.
  unfold pass_records. rewrite in_flat_map. intros (e & He & Hr).
  exists e. unfold entry_records in Hr.
  destruct (truthy (loc_text c e)); [|contradiction].
  destruct Hr as [<-|[]]. auto.
Qed.

Lemma extract_url_data_in (root : Element) (source : str)
  (data : list URLRecord) (r : URLRecord) :
  _extract_url_data root source = Ok data -> In r data ->
  url r <> [] /\ source_sitemap r = source.
Proof.
  rewrite extract_url_data_eq. intros [= <-] Hr.
  apply pass_records_in in Hr. destruct Hr as (e & _ & Hloc & ->).
  split; [apply truthy_true; exact Hloc | reflexivity].
Qed.

(** A record is the stripped text of the first [<loc>] child of an entry of
    the document. *)
Lemma extract_url_data_loc (root : Element) (source : str)
  (data : list URLRecord) (r : URLRecord) :
  _extract_url_data root source = Ok data -> In r data ->
  exists (c : convention) (e loc_elem : Element) (t : str),
    In e (url_entries c root)
    /\ child c (py "loc") e = Some loc_elem
    /\ text loc_elem = Some t
    /\ url r = strip t.
Proof.
  rewrite extract_url_data_eq. intros [= <-] Hr.
  apply pass_records_in in Hr. destruct Hr as (e & He & Hloc & ->).
  exists (used_convention root source), e.
  unfold loc_text, _extract_text in Hloc. cbn [record_of url].
  unfold loc_text, _extract_text.
  destruct (child (used_convention root source) (py "loc") e) as [loc_elem|];
    [|discriminate].
  destruct (text loc_elem) as [t|] eqn:Ht; [|discriminate].
  exists loc_elem, t. destruct (truthy t); [|discriminate]. auto.
Qed.

Lemma contributions_in {E : External} (self : SitemapCrawler) (urls : list str)
  (n n' : Net) (data : list URLRecord) (r : URLRecord) :
  contributions self urls n data n' -> In r data ->
  exists child_url abs_url na nb o doc records,
    In child_url urls
    /\ resolves self child_url abs_url
    /\ session_get na abs_url 30 = (o, nb)
    /\ document_of self o = Some doc
    /\ _extract_url_data doc (last_item (split (ch "/") abs_url)) = Ok records
    /\ In r records.
Proof.
  induction 1 as [n
                 |child a rest n n1 n2 o data Habs Hget Hfail _ IH
                 |child a rest n n1 n2 o doc records data Habs Hget Hdoc Hrec _ IH];
    intros Hr.
  - contradiction.
  - destruct (IH Hr) as (c' & a' & na & nb & o' & doc' & recs' & Hin & H').
    exists c', a', na, nb, o', doc', recs'. split; [right; exact Hin | exact H'].
  - apply in_app_or in Hr. destruct Hr as [Hr|Hr].
    + exists child, a, n, n1, o, doc, records.
      repeat split; try assumption. left; reflexivity.
    + destruct (IH Hr) as (c' & a' & na & nb & o' & doc' & recs' & Hin & H').
      exists c', a', na, nb, o', doc', recs'. split; [right; exact Hin | exact H'].
Qed.

(** ** C1: what is known of the [url] field *)

(** C1, as it holds: every record that a run of [crawl_sitemap_index]
    returns, from a child sitemap or from a flat entry document, has a
    non-empty [url] field, and that field is the text of the first [<loc>]
    child of a [<url>] entry of a fetched document, as written there, with
    the whitespace at its ends removed.  (Nothing makes it absolute.) *)
Theorem C1_url_nonempty {E : External} (self : SitemapCrawler)
  (sitemap_index_url : str) (w : World) (data : list URLRecord) (w' : World)
  (r : URLRecord) :
  crawl_sitemap_index self sitemap_index_url w = (Ok data, w') ->
  In r data ->
  url r <> []
  /\ exists (u : str) (n : Net) (doc : Element) (c : convention)
            (e loc_elem : Element) (t : str),
       document_of self (fst (session_get n u 30)) = Some doc
       /\ In e (url_entries c doc)
       /\ child c (py "loc") e = Some loc_elem
       /\ text loc_elem = Some t
       /\ url r = strip t.
Proof.
  intros Hrun Hr. apply crawl_sitemap_index_run in Hrun.
  destruct Hrun as (u0 & evs & _ & _ & Hcase).
  destruct (document_of _ _) as [root|] eqn:Hdoc.
  - destruct (truthy (index_urls root)).
    + destruct Hcase as (rest & _ & _ & Hc).
      destruct (contributions_in r Hc Hr)
        as (c' & a' & na & nb & o' & doc' & recs' & _ & _ & Hget & Hd & Hx & Hin).
      split; [exact (proj1 (@extract_url_data_in _ _ _ _ Hx Hin))|].
      destruct (@extract_url_data_loc _ _ _ _ Hx Hin) as (c & e & l & t & H).
      exists a', na, doc', c, e, l, t. rewrite Hget. cbn [fst]. auto.
    + destruct Hcase as [Hx _].
      split; [exact (proj1 (@extract_url_data_in _ _ _ _ Hx Hr))|].
      destruct (@extract_url_data_loc _ _ _ _ Hx Hr) as (c & e & l & t & H).
      exists u0, (net w), root, c, e, l, t. auto.
  - destruct Hcase as [-> _]. contradiction.
Qed.

Lemma C1_url_nonempty_witness :
  exists data w' r,
    crawl_sitemap_index (E := ex_com) main_crawler
      (py "https://ex.com/sitemap_index.xml") (start ex_com tt) = (Ok data, w')
    /\ In r data /\ url r <> []
    /\ exists t : str, url r = strip t.
Proof.
  eexists; eexists; eexists.
  assert (Hrun : crawl_sitemap_index (E := ex_com) main_crawler
                   (py "https://ex.com/sitemap_index.xml") (start ex_com tt)
                 = (Ok [{| url := py "https://ex.com/a";
                           last_modified := py "2024-01-01";
                           source_sitemap := py "s1.xml" |}],
                    snd (crawl_sitemap_index (E := ex_com) main_crawler
                           (py "https://ex.com/sitemap_index.xml") (start ex_com tt))))
    by (vm_compute; reflexivity).
  split; [exact Hrun|].
  split; [left; reflexivity|].
  destruct (@C1_url_nonempty ex_com main_crawler _ _ _ _ _ Hrun (or_introl eq_refl))
    as (Hne & u & n & doc & c & e & l & t & _ & _ & _ & _ & Ht).
  split; [exact Hne | exists t; exact Ht].
Defined.

(** C1 fails as stated: a sitemap whose [<loc>] is [/about.html], served as
    the entry document, yields a record whose [url] is that relative text. *)
Lemma C1_relative_url_emitted :
  exists data w' r,
    crawl_sitemap_index (E := relative_site) main_crawler
      (py "https://ex.com/sitemap.xml") (start relative_site tt) = (Ok data, w')
    /\ In r data
    /\ url r = py "/about.html"
    /\ is_absolute (url r) = false.
Proof.
  eexists; eexists; eexists.
  split; [vm_compute; reflexivity|].
  split; [left; reflexivity|].
  split; reflexivity.
Qed.

(** ** C2: when a fetch sleeps *)

(** C2, as it holds: the events of a fetch are the progress line, the
    request, and then, exactly when the request returned a response that
    passes the status check, one sleep of the configured delay right after
    the request, whether or not the body parses afterwards.  When the
    request raises or the status check fails there is no sleep. *)
Theorem C2_sleep_after_checked_response {E : External} (self : SitemapCrawler)
  (u : str) (w : World) :
  exists evs,
    trace (snd (_fetch_xml self u w))
    = trace w ++ [Printed (py "Fetching: " ++ u); HttpGet u 30] ++ evs
    /\ match fst (session_get (net w) u 30) with
       | Ok response =>
           match http_error response with
           | None => exists rest, evs = Slept (delay self) :: rest /\ sleeps rest = []
           | Some _ => sleeps evs = []
           end
       | Raise _ => sleeps evs = []
       end.
Proof.
  rewrite fetch_xml_run. cbn [snd trace].
  exists (after_request self u (fst (session_get (net w) u 30))).
  split; [reflexivity|].
  assert (Hline : forall r : Result Element,
             sleeps match r with
                    | Ok _ => []
                    | Raise e => if caught e then [error_line u (exn_message e)] else []
                    end = []).
  { intros [root|e]; [reflexivity|]. destruct (caught e); reflexivity. }
  unfold after_request.
  destruct (fst (session_get (net w) u 30)) as [response|e].
  - destruct (http_error response).
    + cbn [app]. apply Hline.
    + eexists. split; [reflexivity | apply Hline].
  - cbn [app]. apply Hline.
Qed.

(** C2 fails as stated: the fetch of [main]'s entry URL fails (the session
    refuses the URL), and the run of [_fetch_xml] contains no sleep at
    all. *)
Lemma C2_failed_fetch_does_not_sleep :
  let run := _fetch_xml (E := offline) main_crawler (py "sitemap_index.xml")
               (start offline tt) in
  fst run = Ok None
  /\ requests (trace (snd run)) = [py "sitemap_index.xml"]
  /\ sleeps (trace (snd run)) = [].
Proof. vm_compute. repeat split. Qed.

(** ** C3: one record per usable entry of the query in use *)

Lemma strip_truthy (t : str) : truthy (strip t) = negb (whitespace_only t).
Proof.
  destruct (whitespace_only t) eqn:Hw.
  - apply strip_nil in Hw. rewrite Hw. reflexivity.
  - destruct (strip t) eqn:Hs; [|reflexivity].
    apply strip_nil in Hs. congruence.
Qed.

(** What an entry contributes, read off its first [<loc>] child. *)
Lemma entry_records_eq (c : convention) (source : str) (e : Element) :
  entry_records c source e
  = match child c (py "loc") e with
    | None => []
    | Some loc_elem =>
        match text loc_elem with
        | None => []
        | Some t =>
            if whitespace_only t then []
            else [{| url := strip t;
                     last_modified := _extract_text (child c (py "lastmod") e);
                     source_sitemap := source |}]
        end
    end.
Proof.
  unfold entry_records, record_of, loc_text, _extract_text at 1 2.
  destruct (child c (py "loc") e) as [loc_elem|]; [|reflexivity].
  destruct (text loc_elem) as [t|]; [|reflexivity].
  destruct t as [|x t]; [reflexivity|].
  cbn [truthy]. rewrite strip_truthy.
  destruct (whitespace_only (x :: t)); reflexivity.
Qed.

(** C3, as it holds: the records returned are, in order, the contributions
    of the [<url>] entries matched by the query in use (the namespaced one
    if it yields a record, the bare one otherwise); an entry of that query
    whose first [<loc>] child is missing, has no text or has only whitespace
    contributes nothing, and every other entry of that query contributes
    exactly one record, whose [url] is the stripped text. *)
Theorem C3_one_record_per_usable_entry (root : Element) (source : str) :
  let c := used_convention root source in
  findall root (url_xpath c) (xpath_namespaces c) = Ok (url_entries c root)
  /\ _extract_url_data root source
     = Ok (flat_map (entry_records c source) (url_entries c root))
  /\ forall e : Element,
       entry_records c source e
       = match child c (py "loc") e with
         | None => []
         | Some loc_elem =>
             match text loc_elem with
             | None => []
             | Some t =>
                 if whitespace_only t then []
                 else [{| url := strip t;
                          last_modified := _extract_text (child c (py "lastmod") e);
                          source_sitemap := source |}]
             end
         end.
Proof.
  intros c. split; [apply findall_url_entries|].
  split; [apply extract_url_data_eq | intros e; apply entry_records_eq].
Qed.

(** C3 fails as stated: in a document that mixes the conventions, the bare
    [<url>] entry has a [<loc>] with text and yet no record is produced for
    it, because the namespaced query already yielded one. *)
Lemma C3_entry_with_loc_dropped :
  let entry := element (py "url") [leaf (py "loc") (py "https://ex.com/b")] in
  In entry (descendants mixed_urlset)
  /\ child Bare (py "loc") entry = Some (leaf (py "loc") (py "https://ex.com/b"))
  /\ _extract_url_data mixed_urlset (py "s.xml")
     = Ok [{| url := py "https://ex.com/a";
              last_modified := [];
              source_sitemap := py "s.xml" |}].
Proof.
  split; [right; right; left; reflexivity|].
  split; vm_compute; reflexivity.
Qed.

(** ** C4: declaring the namespace changes no result *)

Lemma Element_induction (P : Element -> Prop) :
  (forall e, Forall P (children e) -> P e) -> forall e, P e.
Proof.
  intros step. fix IH 1. intros [t x kids]. apply step. cbn [children].
  induction kids as [|k kids IHkids]; constructor; [apply IH | exact IHkids].
Qed.

Lemma iter_declare (e : Element) :
  iter (declare_namespace e) = map declare_namespace (iter e).
Proof.
  induction e as [e IH] using Element_induction.
  destruct e as [t x kids]. cbn [iter declare_namespace children map tag text] in *.
  f_equal. induction IH as [|k kids Hk _ IHkids]; [reflexivity|].
  cbn [map flat_map]. rewrite map_app, Hk, IHkids. reflexivity.
Qed.

Lemma descendants_declare (e : Element) :
  descendants (declare_namespace e) = map declare_namespace (descendants e).
Proof.
  pose proof (iter_declare e) as H. destruct e as [t x kids].
  cbn [iter declare_namespace children map tag text] in H.
  injection H as H. exact H.
Qed.

Lemma iter_self (e : Element) : In e (iter e).
Proof. destruct e; left; reflexivity. Qed.

Lemma iter_trans (root : Element) :
  forall e k, In e (iter root) -> In k (iter e) -> In k (iter root).
Proof.
  induction root as [root IH] using Element_induction.
  intros e k He Hk. destruct root as [t x kids]. cbn [iter children] in *.
  destruct He as [<-|He]; [exact Hk|].
  right. apply in_flat_map in He. destruct He as (kid & Hkid & He).
  apply in_flat_map. exists kid. split; [exact Hkid|].
  rewrite Forall_forall in IH. exact (IH kid Hkid e k He Hk).
Qed.

Lemma children_in_iter (e k : Element) : In k (children e) -> In k (iter e).
Proof.
  intros Hk. destruct e as [t x kids]. cbn [iter children] in *.
  right. apply in_flat_map. exists k. split; [exact Hk | apply iter_self].
Qed.

Lemma descendants_in_iter (e k : Element) : In k (descendants e) -> In k (iter e).
Proof. destruct e; intros H; right; exact H. Qed.

(** No element of the tree is in the sitemap namespace. *)
Lemma mentions_namespace_iter (root : Element) :
  mentions_namespace root = false ->
  forall e, In e (iter root) -> startswith (qname Namespaced []) (tag e) = false.
Proof.
  induction root as [root IH] using Element_induction.
  destruct root as [t x kids]. cbn [mentions_namespace iter children tag] in *.
  intros H e He. apply orb_false_iff in H. destruct H as [Ht Hkids].
  destruct He as [<-|He]; [exact Ht|].
  apply in_flat_map in He. destruct He as (kid & Hkid & He).
  rewrite Forall_forall in IH. apply (IH kid Hkid); [|exact He].
  destruct (mentions_namespace kid) eqn:Hm; [|reflexivity].
  assert (existsb mentions_namespace kids = true) as Hex
    by (apply existsb_exists; exists kid; auto).
  congruence.
Qed.

Lemma startswith_app (p s : str) : startswith p (p ++ s) = true.
Proof.
  induction p as [|x p IH]; [reflexivity|].
  simpl. rewrite N.eqb_refl. exact IH.
Qed.

Lemma eqb_app_head (p a b : str) : Py.eqb (p ++ a) (p ++ b) = Py.eqb a b.
Proof.
  induction p as [|x p IH]; [reflexivity|].
  simpl. rewrite N.eqb_refl. exact IH.
Qed.

Lemma eqb_false (a b : str) : a <> b -> Py.eqb a b = false.
Proof.
  intros H. destruct (Py.eqb a b) eqn:Heq; [|reflexivity].
  apply eqb_eq in Heq. contradiction.
Qed.

Lemma qname_namespaced (l : str) : qname Namespaced l = qname Namespaced [] ++ l.
Proof. unfold qname. rewrite app_nil_r, <- !app_assoc. reflexivity. Qed.

Lemma qualify_tag_braced (t : str) : startswith (py "{") (qualify_tag t) = true.
Proof.
  unfold qualify_tag. destruct (startswith (py "{") t) eqn:Ht; [exact Ht|].
  reflexivity.
Qed.

Lemma has_tag_namespaced_clean (l : str) (e : Element) :
  clean e -> has_tag (qname Namespaced l) e = false.
Proof.
  intros He. unfold has_tag. apply eqb_false. intros Heq. unfold clean in He.
  rewrite Heq, (qname_namespaced l), startswith_app in He. discriminate.
Qed.

Lemma has_tag_bare_declared (l : str) (e : Element) :
  startswith (py "{") l = false -> has_tag l (declare_namespace e) = false.
Proof.
  intros Hl. unfold has_tag. apply eqb_false. intros Heq.
  destruct e as [t x kids]. cbn [declare_namespace tag] in Heq.
  pose proof (qualify_tag_braced t) as Hq. rewrite Heq in Hq. congruence.
Qed.

Lemma has_tag_namespaced_declared (l : str) (e : Element) :
  startswith (py "{") l = false -> clean e ->
  has_tag (qname Namespaced l) (declare_namespace e) = has_tag l e.
Proof.
  intros Hl He. unfold has_tag. unfold clean in He.
  destruct e as [t x kids]. cbn [declare_namespace tag] in *.
  unfold qualify_tag. destruct (startswith (py "{") t) eqn:Ht.
  - rewrite !eqb_false; [reflexivity| |].
    + intros ->. congruence.
    + intros ->. rewrite (qname_namespaced l), startswith_app in He. discriminate.
  - rewrite (qname_namespaced t), (qname_namespaced l). apply eqb_app_head.
Qed.

Lemma filter_namespaced_clean (l : str) (elems : list Element) :
  startswith (py "{") l = false -> Forall clean elems ->
  filter (has_tag (qname Namespaced l)) elems = [].
Proof.
  intros Hl. induction 1 as [|e elems He _ IH]; [reflexivity|].
  cbn [filter]. rewrite has_tag_namespaced_clean by assumption. exact IH.
Qed.

Lemma filter_bare_declared (l : str) (elems : list Element) :
  startswith (py "{") l = false ->
  filter (has_tag l) (map declare_namespace elems) = [].
Proof.
  intros Hl. induction elems as [|e elems IH]; [reflexivity|].
  cbn [map filter]. rewrite has_tag_bare_declared by assumption. exact IH.
Qed.

Lemma filter_namespaced_declared (l : str) (elems : list Element) :
  startswith (py "{") l = false -> Forall clean elems ->
  filter (has_tag (qname Namespaced l)) (map declare_namespace elems)
  = map declare_namespace (filter (has_tag l) elems).
Proof.
  intros Hl. induction 1 as [|e elems He _ IH]; [reflexivity|].
  cbn [map filter]. rewrite has_tag_namespaced_declared by assumption.
  destruct (has_tag l e); cbn [map]; rewrite IH; reflexivity.
Qed.

Lemma children_declare (e : Element) :
  children (declare_namespace e) = map declare_namespace (children e).
Proof. destruct e; reflexivity. Qed.

Lemma extract_text_declare (e : Element) :
  _extract_text (Some (declare_namespace e)) = _extract_text (Some e).
Proof. destruct e; reflexivity. Qed.

Lemma clean_descendants (root : Element) :
  mentions_namespace root = false -> Forall clean (descendants root).
Proof.
  intros H. apply Forall_forall. intros e He.
  apply (mentions_namespace_iter root H). apply descendants_in_iter. exact He.
Qed.

Lemma clean_children (root e : Element) :
  mentions_namespace root = false -> In e (iter root) -> Forall clean (children e).
Proof.
  intros H He. apply Forall_forall. intros k Hk.
  apply (mentions_namespace_iter root H).
  apply (iter_trans root e k He). apply children_in_iter. exact Hk.
Qed.

Section Declared.
Variable root : Element.
Hypothesis Hroot : mentions_namespace root = false.

Lemma sitemap_entries_declared :
  sitemap_entries Namespaced (declare_namespace root)
  = map declare_namespace (sitemap_entries Bare root).
Proof.
  unfold sitemap_entries. rewrite descendants_declare.
  apply filter_namespaced_declared; [reflexivity | apply clean_descendants, Hroot].
Qed.

Lemma child_declared (l : str) (e : Element) :
  startswith (py "{") l = false -> In e (iter root) ->
  child Namespaced l (declare_namespace e) = option_map declare_namespace (child Bare l e).
Proof.
  intros Hl He. unfold child. rewrite children_declare.
  rewrite filter_namespaced_declared; [|exact Hl|apply (clean_children root e Hroot He)].
  cbn [qname]. destruct (filter (has_tag l) (children e)); reflexivity.
Qed.

Lemma extract_text_option_declare (o : option Element) :
  _extract_text (option_map declare_namespace o) = _extract_text o.
Proof. destruct o as [e|]; [apply extract_text_declare | reflexivity]. Qed.

Lemma sitemap_texts_declared :
  sitemap_texts Namespaced (declare_namespace root) = sitemap_texts Bare root.
Proof.
  unfold sitemap_texts, sitemap_locs. rewrite sitemap_entries_declared.
  unfold sitemap_entries.
  assert (Hsub : forall s, In s (filter (has_tag (qname Bare (py "sitemap"))) (descendants root))
                           -> In s (iter root)).
  { intros s Hs. apply filter_In in Hs. apply descendants_in_iter, Hs. }
  induction (filter (has_tag (qname Bare (py "sitemap"))) (descendants root))
    as [|s entries IH]; [reflexivity|].
  cbn [map flat_map]. rewrite !map_app, IH by (intros; apply Hsub; right; assumption).
  f_equal. rewrite children_declare.
  rewrite filter_namespaced_declared;
    [|reflexivity|apply (clean_children root s Hroot); apply Hsub; left; reflexivity].
  rewrite map_map. apply map_ext. intros k. apply extract_text_declare.
Qed.

Lemma sitemap_texts_bare_declared :
  sitemap_texts Bare (declare_namespace root) = [].
Proof.
  unfold sitemap_texts, sitemap_locs, sitemap_entries.
  rewrite descendants_declare, filter_bare_declared; reflexivity.
Qed.

Lemma sitemap_texts_namespaced_clean : sitemap_texts Namespaced root = [].
Proof.
  unfold sitemap_texts, sitemap_locs, sitemap_entries.
  rewrite filter_namespaced_clean; [reflexivity|reflexivity|apply clean_descendants, Hroot].
Qed.

Lemma entry_records_declared (source : str) (e : Element) :
  In e (iter root) ->
  entry_records Namespaced source (declare_namespace e) = entry_records Bare source e.
Proof.
  intros He. unfold entry_records, record_of, loc_text.
  rewrite !child_declared by (reflexivity || assumption).
  rewrite !extract_text_option_declare. reflexivity.
Qed.

Lemma pass_records_declared (source : str) :
  pass_records Namespaced (declare_namespace root) source = pass_records Bare root source.
Proof.
  unfold pass_records, url_entries. rewrite descendants_declare.
  rewrite filter_namespaced_declared; [|reflexivity|apply clean_descendants, Hroot].
  cbn [qname].
  assert (Hsub : forall e, In e (filter (has_tag (py "url")) (descendants root))
                           -> In e (iter root)).
  { intros e He. apply filter_In in He. apply descendants_in_iter, He. }
  induction (filter (has_tag (py "url")) (descendants root)) as [|e entries IH];
    [reflexivity|].
  cbn [map flat_map]. rewrite IH by (intros; apply Hsub; right; assumption).
  rewrite entry_records_declared by (apply Hsub; left; reflexivity). reflexivity.
Qed.

Lemma pass_records_bare_declared (source : str) :
  pass_records Bare (declare_namespace root) source = [].
Proof.
  unfold pass_records, url_entries.
  rewrite descendants_declare, filter_bare_declared; reflexivity.
Qed.

Lemma pass_records_namespaced_clean (source : str) :
  pass_records Namespaced root source = [].
Proof.
  unfold pass_records, url_entries.
  rewrite filter_namespaced_clean; [reflexivity|reflexivity|apply clean_descendants, Hroot].
Qed.

End Declared.

(** A tree without any element in the sitemap namespace, and the same
    tree with every tag that has no namespace put into the sitemap
    namespace, give the same child URLs and the same records. *)
Lemma declare_namespace_same_results (doc : Element) (source : str) :
  mentions_namespace doc = false ->
  _extract_sitemap_urls (declare_namespace doc) = _extract_sitemap_urls doc
  /\ _extract_url_data (declare_namespace doc) source = _extract_url_data doc source.
Proof.
  intros Hdoc. split.
  - rewrite !extract_sitemap_urls_eq. unfold index_urls.
    rewrite sitemap_texts_declared, sitemap_texts_bare_declared,
      sitemap_texts_namespaced_clean by exact Hdoc.
    cbn [truthy]. destruct (truthy (sitemap_texts Bare doc)) eqn:Ht; [reflexivity|].
    apply truthy_false in Ht. rewrite Ht. reflexivity.
  - rewrite !extract_url_data_eq. unfold used_convention.
    rewrite pass_records_declared, (@pass_records_namespaced_clean doc Hdoc) by exact Hdoc.
    cbn [truthy]. destruct (truthy (pass_records Bare doc source)) eqn:Ht.
    + f_equal. apply pass_records_declared, Hdoc.
    + apply truthy_false in Ht. rewrite Ht, pass_records_bare_declared. reflexivity.
Qed.

Lemma Markup_induction (P : Markup -> Prop) :
  (forall m, Forall P (nested m) -> P m) -> forall m, P m.
Proof.
  intros step. fix IH 1. intros [n d b kids]. apply step. cbn [nested].
  induction kids as [|k kids IHkids]; constructor; [apply IH | exact IHkids].
Qed.

Lemma startswith_brace_false (t : str) :
  negb (startswith (py "{") t) = true ->
  startswith (qname Namespaced []) t = false.
Proof.
  destruct t as [|c t]; [reflexivity|].
  change (startswith (py "{") (c :: t)) with (N.eqb 123 c && true).
  change (startswith (qname Namespaced []) (c :: t))
    with (N.eqb 123 c && startswith (py "http://www.sitemaps.org/schemas/sitemap/0.9}") t).
  destruct (N.eqb 123 c); [discriminate | reflexivity].
Qed.

(** Below a declaration of the sitemap namespace, a document without
    further declarations is parsed into the tree that it gives without any
    declaration, with every tag put into the namespace; and that tree has
    no element in the namespace. *)
Lemma parse_in_declared (m : Markup) :
  no_declaration m = true ->
  plain_names m = true ->
  parse_in NS_URI m = declare_namespace (parse_in [] m)
  /\ mentions_namespace (parse_in [] m) = false.
Proof.
  induction m as [m IH] using Markup_induction.
  destruct m as [n d b kids]. cbn [no_declaration plain_names xmlns name nested] in *.
  destruct d as [uri|]; [discriminate|]. intros Hno Hplain.
  apply andb_true_iff in Hplain. destruct Hplain as [Hn Hkids].
  cbn [parse_in xmlns name body nested truthy declare_namespace mentions_namespace
       tag text children].
  assert (Hall : map (parse_in NS_URI) kids
                 = map declare_namespace (map (parse_in []) kids)
                 /\ existsb mentions_namespace (map (parse_in []) kids) = false).
  { clear Hn. revert Hno Hkids.
    induction IH as [|k kids Hk _ IHkids]; intros Hno Hkids; [split; reflexivity|].
    cbn [forallb] in Hno, Hkids.
    apply andb_true_iff in Hno, Hkids.
    destruct Hno as [Hno1 Hno2], Hkids as [Hp1 Hp2].
    destruct (Hk Hno1 Hp1) as [Hk1 Hk2]. destruct (IHkids Hno2 Hp2) as [H1 H2].
    cbn [map existsb]. rewrite Hk1, Hk2, H1, H2. split; reflexivity. }
  destruct Hall as [Hmap Hex]. split.
  - f_equal; [|exact Hmap].
    unfold qualify_tag. apply negb_true_iff in Hn. rewrite Hn. reflexivity.
  - rewrite Hex, (startswith_brace_false _ Hn). reflexivity.
Qed.

(** The two documents of a pair, parsed. *)
Lemma parse_declared (m : Markup) :
  forallb no_declaration (nested m) = true ->
  plain_names m = true ->
  parse (declared m) = declare_namespace (parse (undeclared m))
  /\ mentions_namespace (parse (undeclared m)) = false.
Proof.
  destruct m as [n d b kids]. intros Hno Hplain.
  assert (Hm : no_declaration (undeclared (mkMarkup n d b kids)) = true) by exact Hno.
  assert (Hp : plain_names (undeclared (mkMarkup n d b kids)) = true) by exact Hplain.
  destruct (parse_in_declared (undeclared (mkMarkup n d b kids)) Hm Hp) as [H1 H2].
  split; [|exact H2].
  change (parse (undeclared (mkMarkup n d b kids)))
    with (parse_in [] (undeclared (mkMarkup n d b kids))).
  rewrite <- H1. reflexivity.
Qed.

(** C4, as it holds: two documents that differ only in whether the root
    element declares the sitemap namespace as the default namespace, and
    that contain no other namespace declaration (so that no name has a
    prefix, and no element below the root carries a declaration of its
    own), give the same child URLs and the same records.  The names are
    XML names: none starts with a brace. *)
Theorem C4_root_declaration_irrelevant (m : Markup) (source : str) :
  forallb no_declaration (nested m) = true ->
  plain_names m = true ->
  _extract_sitemap_urls (parse (declared m))
  = _extract_sitemap_urls (parse (undeclared m))
  /\ _extract_url_data (parse (declared m)) source
     = _extract_url_data (parse (undeclared m)) source.
Proof.
  intros Hno Hplain.
  destruct (parse_declared m Hno Hplain) as [-> Hclean].
  apply declare_namespace_same_results. exact Hclean.
Qed.

Lemma C4_root_declaration_irrelevant_witness :
  parse (undeclared bare_urlset_text) = bare_urlset
  /\ _extract_url_data (parse (declared bare_urlset_text)) (py "s.xml")
     = Ok [{| url := py "https://ex.com/a";
              last_modified := py "2024-01-01";
              source_sitemap := py "s.xml" |}]
  /\ _extract_sitemap_urls (parse (declared ex_index_text))
     = Ok [py "https://ex.com/s0.xml"; py "https://ex.com/s1.xml"].
Proof.
  split; [reflexivity|].
  split.
  - rewrite (proj2 (@C4_root_declaration_irrelevant bare_urlset_text (py "s.xml")
                      eq_refl eq_refl)).
    reflexivity.
  - rewrite (proj1 (@C4_root_declaration_irrelevant ex_index_text [] eq_refl eq_refl)).
    reflexivity.
Defined.

(** C4 fails as stated: in a sitemap whose second entry takes the default
    namespace away ([xmlns=""]), declaring the sitemap namespace on the root
    puts the root and the first entry into it and leaves the second entry
    bare; without the declaration both entries yield a record, with it only
    the first one does. *)
Lemma C4_inner_declaration_differs :
  let a := {| url := py "https://ex.com/a"; last_modified := [];
              source_sitemap := py "s.xml" |} in
  let b := {| url := py "https://ex.com/b"; last_modified := [];
              source_sitemap := py "s.xml" |} in
  _extract_url_data (parse (undeclared undeclaring_urlset_text)) (py "s.xml")
  = Ok [a; b]
  /\ _extract_url_data (parse (declared undeclaring_urlset_text)) (py "s.xml")
     = Ok [a]
  /\ map tag (children (parse (declared undeclaring_urlset_text)))
     = [qname Namespaced (py "url"); py "url"].
Proof. vm_compute. repeat split. Qed.

(** ** C5 and C10: the namespaced query first, the bare query as fallback *)

Lemma url_pass_eq (c : convention) (root : Element) (source : str) :
  (url_elems <- findall root (url_xpath c) (xpath_namespaces c) ;;
   url_entries_loop url_elems (xpath_prefix c) (xpath_namespaces c) source [])
  = Ok (pass_records c root source).
Proof.
  rewrite findall_url_entries. cbn [bind Monad_Result].
  rewrite url_entries_loop_eq. reflexivity.
Qed.

Lemma url_queries_eq (root : Element) (source : str) :
  url_queries root source
  = Ok (if truthy (pass_records Namespaced root source)
        then [py ".//ns:url"]
        else [py ".//ns:url"; py ".//url"]).
Proof.
  unfold url_queries. rewrite url_data_loop_eq. unfold used_convention.
  destruct (truthy (pass_records Namespaced root source)); reflexivity.
Qed.

Lemma sitemap_queries_eq (root : Element) :
  sitemap_queries root
  = Ok (if truthy (sitemap_locs Namespaced root)
        then [py ".//ns:sitemap/ns:loc"]
        else [py ".//ns:sitemap/ns:loc"; py ".//sitemap/loc"]).
Proof.
  unfold sitemap_queries. rewrite sitemap_urls_loop_eq. unfold sitemap_texts.
  destruct (sitemap_locs Namespaced root); reflexivity.
Qed.

Lemma index_urls_eq (root : Element) :
  index_urls root
  = filter truthy
      (map (fun elem => _extract_text (Some elem))
           (if truthy (sitemap_locs Namespaced root)
            then sitemap_locs Namespaced root
            else sitemap_locs Bare root)).
Proof.
  unfold index_urls, sitemap_texts.
  destruct (sitemap_locs Namespaced root); reflexivity.
Qed.

(** C5: each operation runs the namespaced query first; if that query
    yields anything (elements for the child URLs, records for the URL
    data), the bare query is not run and the result comes from the
    namespaced query alone; otherwise the bare query is run and the result
    comes from it alone. *)
Theorem C5_namespaced_first_never_merged (root : Element) (source : str) :
  (exists ns_elems bare_elems : list Element,
      findall root (py ".//ns:sitemap/ns:loc") SITEMAP_NS = Ok ns_elems
      /\ findall root (py ".//sitemap/loc") [] = Ok bare_elems
      /\ if truthy ns_elems
         then sitemap_queries root = Ok [py ".//ns:sitemap/ns:loc"]
              /\ _extract_sitemap_urls root
                 = Ok (filter truthy
                         (map (fun elem => _extract_text (Some elem)) ns_elems))
         else sitemap_queries root
              = Ok [py ".//ns:sitemap/ns:loc"; py ".//sitemap/loc"]
              /\ _extract_sitemap_urls root
                 = Ok (filter truthy
                         (map (fun elem => _extract_text (Some elem)) bare_elems)))
  /\ (exists ns_records bare_records : list URLRecord,
         (url_elems <- findall root (py ".//ns:url") SITEMAP_NS ;;
          url_entries_loop url_elems (py "ns:") SITEMAP_NS source []) = Ok ns_records
         /\ (url_elems <- findall root (py ".//url") [] ;;
             url_entries_loop url_elems [] [] source []) = Ok bare_records
         /\ if truthy ns_records
            then url_queries root source = Ok [py ".//ns:url"]
                 /\ _extract_url_data root source = Ok ns_records
            else url_queries root source = Ok [py ".//ns:url"; py ".//url"]
                 /\ _extract_url_data root source = Ok bare_records).
Proof.
  split.
  - exists (sitemap_locs Namespaced root), (sitemap_locs Bare root).
    split; [exact (findall_sitemap_locs Namespaced root)|].
    split; [exact (findall_sitemap_locs Bare root)|].
    rewrite sitemap_queries_eq, extract_sitemap_urls_eq, index_urls_eq.
    destruct (truthy (sitemap_locs Namespaced root)); split; reflexivity.
  - exists (pass_records Namespaced root source), (pass_records Bare root source).
    split; [exact (url_pass_eq Namespaced root source)|].
    split; [exact (url_pass_eq Bare root source)|].
    rewrite url_queries_eq, extract_url_data_eq. unfold used_convention.
    destruct (truthy (pass_records Namespaced root source)); split; reflexivity.
Qed.

Lemma filter_truthy_no_text (elems : list Element) :
  Forall (fun elem => no_text (Some elem)) elems ->
  filter truthy (map (fun elem => _extract_text (Some elem)) elems) = [].
Proof.
  induction 1 as [|e elems He _ IH]; [reflexivity|].
  cbn [map filter]. apply extract_text_empty in He. rewrite He. exact IH.
Qed.

(** C10: when the namespaced query of [_extract_sitemap_urls] matches some
    element and every matched element has no text or only whitespace, the
    result is the empty list and the bare query is not run; whereas
    [_extract_url_data] runs the bare query, and returns its records,
    whenever the namespaced pass produced no record. *)
Theorem C10_fallback_triggers (root : Element) (source : str)
  (ns_elems : list Element) (ns_records : list URLRecord) :
  findall root (py ".//ns:sitemap/ns:loc") SITEMAP_NS = Ok ns_elems ->
  (url_elems <- findall root (py ".//ns:url") SITEMAP_NS ;;
   url_entries_loop url_elems (py "ns:") SITEMAP_NS source []) = Ok ns_records ->
  (ns_elems <> [] ->
   Forall (fun elem => no_text (Some elem)) ns_elems ->
   _extract_sitemap_urls root = Ok []
   /\ sitemap_queries root = Ok [py ".//ns:sitemap/ns:loc"])
  /\ (ns_records = [] ->
      url_queries root source = Ok [py ".//ns:url"; py ".//url"]
      /\ _extract_url_data root source
         = (url_elems <- findall root (py ".//url") [] ;;
            url_entries_loop url_elems [] [] source [])).
Proof.
  intros Hfind Hpass.
  assert (Hns : ns_elems = sitemap_locs Namespaced root).
  { pose proof (findall_sitemap_locs Namespaced root) as H.
    change (findall root (py ".//ns:sitemap/ns:loc") SITEMAP_NS
            = Ok (sitemap_locs Namespaced root)) in H. congruence. }
  assert (Hrec : ns_records = pass_records Namespaced root source).
  { pose proof (url_pass_eq Namespaced root source) as H.
    change ((url_elems <- findall root (py ".//ns:url") SITEMAP_NS ;;
             url_entries_loop url_elems (py "ns:") SITEMAP_NS source [])
            = Ok (pass_records Namespaced root source)) in H. congruence. }
  subst ns_elems ns_records. split.
  - intros Hsome Hblank. apply truthy_true in Hsome.
    rewrite sitemap_queries_eq, extract_sitemap_urls_eq, index_urls_eq, Hsome.
    rewrite filter_truthy_no_text by exact Hblank. split; reflexivity.
  - intros Hnone.
    rewrite url_queries_eq, extract_url_data_eq. unfold used_convention.
    rewrite Hnone. cbn [truthy]. split; [reflexivity|].
    symmetry. exact (url_pass_eq Bare root source).
Qed.

Lemma C10_fallback_triggers_witness :
  (_extract_sitemap_urls blank_index = Ok []
   /\ sitemap_queries blank_index = Ok [py ".//ns:sitemap/ns:loc"])
  /\ (url_queries blank_urlset (py "s.xml") = Ok [py ".//ns:url"; py ".//url"]
      /\ _extract_url_data blank_urlset (py "s.xml")
         = Ok [{| url := py "https://ex.com/b";
                  last_modified := [];
                  source_sitemap := py "s.xml" |}]).
Proof.
  split.
  - refine (proj1 (@C10_fallback_triggers blank_index []
                     [leaf (qname Namespaced (py "loc")) (py "  ")] []
                     eq_refl eq_refl) _ _).
    + discriminate.
    + repeat constructor.
  - exact (proj2 (@C10_fallback_triggers blank_urlset (py "s.xml")
                    (sitemap_locs Namespaced blank_urlset) [] eq_refl eq_refl) eq_refl).
Defined.

(** ** C6: a failed fetch of the entry URL *)

(** C6, as it holds: when the fetch of the (resolved) entry URL fails in one
    of the ways of [fetch_failure] (the request raises a
    [RequestException], the status is one for which the status check
    raises, 400 to 599, or the parser raises [ParseError] on the body),
    [crawl_sitemap_index] returns the empty list, raises nothing, and has
    made that one request only. *)
Theorem C6_root_failure_returns_empty {E : External} (self : SitemapCrawler)
  (sitemap_index_url u0 : str) (w : World) (o : Result Response) (n' : Net) :
  resolves self sitemap_index_url u0 ->
  session_get (net w) u0 30 = (o, n') ->
  fetch_failure self o ->
  exists evs,
    crawl_sitemap_index self sitemap_index_url w
    = (Ok [], {| net := n'; trace := trace w ++ evs |})
    /\ requests evs = [u0].
Proof.
  intros Habs Hget Hfail. apply fetch_result_none in Hfail.
  unfold crawl_sitemap_index. rewrite bind_run. unfold lift at 1.
  unfold resolves in Habs. rewrite Habs.
  rewrite bind_run, print_run, bind_run, fetch_xml_run. cbn [net trace].
  rewrite Hget. cbn [fst snd]. rewrite Hfail.
  eexists. split.
  - cbn [ret Monad_M]. rewrite <- !app_assoc. reflexivity.
  - cbn [requests flat_map app]. rewrite requests_after_request. reflexivity.
Qed.

Lemma C6_root_failure_returns_empty_witness :
  exists evs,
    crawl_sitemap_index (E := ex_com) main_crawler (py "https://ex.com/s0.xml")
      (start ex_com tt)
    = (Ok [], @Build_World ex_com tt ([] ++ evs))
    /\ requests evs = [py "https://ex.com/s0.xml"].
Proof.
  exact (@C6_root_failure_returns_empty ex_com main_crawler
           (py "https://ex.com/s0.xml") (py "https://ex.com/s0.xml")
           (start ex_com tt) (not_found (py "https://ex.com/s0.xml")) tt
           eq_refl eq_refl
           (@status_failure ex_com main_crawler
              (response 404 (py "Not Found") "" (py "https://ex.com/s0.xml"))
              (py "404 Client Error: Not Found for url: https://ex.com/s0.xml")
              eq_refl)).
Defined.

(** C6 fails as stated, in two ways.  A body in an encoding that the parser
    does not support is an XML parse error that is no [ParseError]: the
    [ValueError] leaves [crawl_sitemap_index].  And a status that is not 2xx
    need not fail the status check: an entry document served with the status
    300 is read like any other, its child is fetched and records are
    returned. *)
Lemma C6_root_failure_raises_or_goes_on :
  (exists w',
      crawl_sitemap_index (E := multibyte_com) main_crawler
        (py "https://ex.com/sitemap_index.xml") (start multibyte_com tt)
      = (Raise (ValueError (py "multi-byte encodings are not supported")), w'))
  /\ (exists response data w',
         session_get (E := choices_com) tt (py "https://ex.com/sitemap_index.xml") 30
         = (Ok response, tt)
         /\ status_code response = 300%N
         /\ crawl_sitemap_index (E := choices_com) main_crawler
              (py "https://ex.com/sitemap_index.xml") (start choices_com tt)
            = (Ok data, w')
         /\ data <> []
         /\ requests (trace w')
            = [py "https://ex.com/sitemap_index.xml"; py "https://ex.com/s1.xml"]).
Proof.
  split.
  - eexists. vm_compute. reflexivity.
  - eexists; eexists; eexists.
    split; [vm_compute; reflexivity|].
    split; [reflexivity|].
    split; [vm_compute; reflexivity|].
    split; [discriminate | reflexivity].
Qed.

(** ** C7: the order of the rows *)

Lemma ltb_irrefl (a : str) : Py.ltb a a = false.
Proof.
  induction a as [|x a IH]; [reflexivity|].
  simpl. rewrite N.ltb_irrefl, N.eqb_refl, IH. reflexivity.
Qed.

(** [b < a] is false exactly when [a] comes first in the order of strings. *)
Lemma ltb_false_iff (a b : str) : Py.ltb b a = false <-> lex_le a b.
Proof.
  split.
  - revert b. induction a as [|x a IH]; intros b H; [constructor|].
    destruct b as [|y b]; [discriminate|].
    simpl in H. apply orb_false_iff in H. destruct H as [Hlt Heq].
    apply N.ltb_ge in Hlt.
    destruct (N.eqb y x) eqn:Hyx.
    + apply N.eqb_eq in Hyx. subst y. apply lex_le_eq, IH. exact Heq.
    + apply N.eqb_neq in Hyx. apply lex_le_lt. lia.
  - induction 1 as [b|x y a b Hlt|x a b _ IH].
    + destruct b; reflexivity.
    + simpl. apply orb_false_iff. split; [apply N.ltb_ge; lia|].
      replace (N.eqb y x) with false by (symmetry; apply N.eqb_neq; lia).
      reflexivity.
    + simpl. rewrite N.ltb_irrefl, N.eqb_refl, IH. reflexivity.
Qed.

Lemma lex_le_trans (a b c : str) : lex_le a b -> lex_le b c -> lex_le a c.
Proof.
  intros Hab. revert c. induction Hab as [b|x y a b Hlt|x a b _ IH]; intros c Hbc.
  - constructor.
  - inversion Hbc; subst; apply lex_le_lt; lia.
  - inversion Hbc; subst; [apply lex_le_lt; assumption | apply lex_le_eq, IH; assumption].
Qed.

Lemma lex_le_total (a b : str) : lex_le a b \/ lex_le b a.
Proof.
  destruct (Py.ltb b a) eqn:H.
  - right. apply ltb_false_iff. revert b H.
    induction a as [|x a IH]; intros [|y b] H; try discriminate; try reflexivity.
    simpl in *. apply orb_true_iff in H. destruct H as [H|H].
    + apply N.ltb_lt in H. apply orb_false_iff. split; [apply N.ltb_ge; lia|].
      replace (N.eqb x y) with false by (symmetry; apply N.eqb_neq; lia).
      reflexivity.
    + apply andb_true_iff in H. destruct H as [Heq H]. apply N.eqb_eq in Heq. subst y.
      rewrite N.ltb_irrefl, N.eqb_refl, (IH b H). reflexivity.
  - left. apply ltb_false_iff. exact H.
Qed.

Section Sorting.
Variable A : Type.
Variable key : A -> str.

Lemma insert_by_perm (x : A) (l : list A) : Permutation (x :: l) (insert_by key x l).
Proof.
  induction l as [|y l IH]; simpl; [apply Permutation_refl|].
  destruct (Py.ltb (key y) (key x)); [|apply Permutation_refl].
  eapply perm_trans; [apply perm_swap|]. apply perm_skip. exact IH.
Qed.

Lemma sorted_perm (l : list A) : Permutation l (sorted l key).
Proof.
  induction l as [|x l IH]; simpl; [constructor|].
  eapply perm_trans; [apply perm_skip; exact IH | apply insert_by_perm].
Qed.

Lemma insert_by_sorted (x : A) (l : list A) :
  Sorted (key_le key) l -> Sorted (key_le key) (insert_by key x l).
Proof.
  induction 1 as [|y l Hs IH Hhd]; simpl; [repeat constructor|].
  destruct (Py.ltb (key y) (key x)) eqn:Hyx.
  - constructor; [exact IH|].
    assert (Hle : (key_le key) y x).
    { destruct (lex_le_total (key y) (key x)) as [H|H]; [exact H|].
      apply ltb_false_iff in H. congruence. }
    destruct l as [|z l]; simpl; [constructor; exact Hle|].
    destruct (Py.ltb (key z) (key x)); constructor; [|exact Hle].
    inversion Hhd; assumption.
  - constructor; [constructor; assumption|].
    constructor. apply ltb_false_iff. exact Hyx.
Qed.

Lemma sorted_sorted (l : list A) : StronglySorted (key_le key) (sorted l key).
Proof.
  apply Sorted_StronglySorted.
  - intros a b c. apply lex_le_trans.
  - induction l as [|x l IH]; simpl; [constructor|].
    apply insert_by_sorted. exact IH.
Qed.

End Sorting.

(** Records with equal keys keep their order: the sort is stable. *)
Lemma sorted_stable (A : Type) (key : A -> str) (k : str) (l : list A) :
  filter (fun a => Py.eqb (key a) k) (sorted l key)
  = filter (fun a => Py.eqb (key a) k) l.
Proof.
  induction l as [|x l IH]; [reflexivity|].
  cbn [sorted fold_right]. fold (sorted l key).
  cbn [filter]. rewrite <- IH. clear IH.
  induction (sorted l key) as [|y s IHs]; [reflexivity|].
  cbn [insert_by]. destruct (Py.ltb (key y) (key x)) eqn:Hyx; [|reflexivity].
  cbn [filter]. rewrite IHs.
  destruct (Py.eqb (key y) k) eqn:Hy, (Py.eqb (key x) k) eqn:Hx; try reflexivity.
  apply eqb_eq in Hy, Hx. rewrite Hy, Hx, ltb_irrefl in Hyx. discriminate.
Qed.

(** C7: for a non-empty list of records, [save_to_csv] writes the header
    and then the records as rows in ascending order of their [url] (code
    point by code point, so upper and lower case differ), each record once;
    in particular the record of [https://a.com/y] precedes the record of
    [https://b.com/x] when they are given in the other order. *)
Theorem C7_rows_sorted_by_url {E : External} (self : SitemapCrawler)
  (url_data : list URLRecord) (filename : str) (w : World) :
  url_data <> [] ->
  exists rows : list URLRecord,
    save_to_csv self url_data filename w
    = (Ok tt,
       {| net := net w;
          trace := trace w
                   ++ [CsvWritten filename (fieldnames :: map csv_row rows);
                       Printed (py "Saved " ++ str_of_nat (len url_data)
                                ++ py " URLs to " ++ filename)] |})
    /\ Permutation url_data rows
    /\ StronglySorted (fun a b => lex_le (url a) (url b)) rows
    /\ (forall ra rb : URLRecord,
           url_data = [rb; ra] ->
           url ra = py "https://a.com/y" ->
           url rb = py "https://b.com/x" ->
           rows = [ra; rb]).
Proof.
  intros Hne. exists (sorted url_data url). split; [|split; [|split]].
  - unfold save_to_csv. apply truthy_true in Hne. rewrite Hne. cbn [negb].
    rewrite bind_run. unfold emit at 1. rewrite print_run. cbn [net trace].
    rewrite <- app_assoc. reflexivity.
  - apply sorted_perm.
  - apply (sorted_sorted url).
  - intros ra rb -> Ha Hb. cbn [sorted fold_right insert_by].
    rewrite Ha, Hb. reflexivity.
Qed.

Lemma C7_rows_sorted_by_url_witness :
  exists rows : list URLRecord,
    trace (snd (save_to_csv (E := offline) main_crawler
                  [record "https://b.com/x"; record "https://a.com/y"]
                  (py "extracted_urls.csv") (start offline tt)))
    = [CsvWritten (py "extracted_urls.csv") (fieldnames :: map csv_row rows);
       Printed (py "Saved 2 URLs to extracted_urls.csv")]
    /\ rows = [record "https://a.com/y"; record "https://b.com/x"].
Proof.
  destruct (@C7_rows_sorted_by_url offline main_crawler
              [record "https://b.com/x"; record "https://a.com/y"]
              (py "extracted_urls.csv") (start offline tt))
    as (rows & Hrun & _ & _ & Hrows); [discriminate|].
  exists rows. split.
  - rewrite Hrun. reflexivity.
  - apply Hrows; reflexivity.
Defined.

(** ** C8: the source label *)

Lemma split_not_nil (sep : char) (s : str) : split sep s <> [].
Proof.
  destruct s as [|c s]; simpl; [discriminate|].
  destruct (N.eqb c sep); [discriminate|].
  destruct (split sep s); discriminate.
Qed.

Lemma split_fields (sep : char) (s : str) :
  Forall (fun field => ~ In sep field) (split sep s).
Proof.
  induction s as [|c s IH]; simpl; [repeat constructor; auto|].
  destruct (N.eqb c sep) eqn:Hc; [constructor; auto|].
  apply N.eqb_neq in Hc.
  destruct (split sep s) as [|field fields]; [repeat constructor; simpl; intuition|].
  inversion IH as [|? ? Hfield Hfields]; subst.
  constructor; [|exact Hfields].
  simpl. intros [H|H]; [congruence | exact (Hfield H)].
Qed.

(** [sep.join(s.split(sep)) == s] *)
Lemma join_split (sep : char) (s : str) : join sep (split sep s) = s.
Proof.
  induction s as [|c s IH]; [reflexivity|].
  cbn [split]. pose proof (split_not_nil sep s) as Hne.
  destruct (split sep s) as [|field fields]; [contradiction|].
  destruct (N.eqb c sep) eqn:Hc.
  - apply N.eqb_eq in Hc. subst c. cbn [join app]. f_equal. exact IH.
  - destruct fields as [|field' fields]; cbn [join app] in *; f_equal; exact IH.
Qed.

Lemma join_last (sep : char) (fields : list str) :
  fields <> [] ->
  exists before,
    join sep fields = before ++ last_item fields
    /\ (before = [] \/ exists p, before = p ++ [sep]).
Proof.
  unfold last_item. induction fields as [|f fields IH]; [contradiction|]. intros _.
  destruct fields as [|g fields]; [exists []; auto|].
  destruct IH as (before & Hjoin & Hbefore); [discriminate|].
  exists (f ++ sep :: before). split.
  - change (join sep (f :: g :: fields)) with (f ++ sep :: join sep (g :: fields)).
    rewrite Hjoin, <- app_assoc. reflexivity.
  - right. destruct Hbefore as [->|(p & ->)].
    + exists f. reflexivity.
    + exists (f ++ sep :: p). rewrite <- app_assoc. reflexivity.
Qed.

(** The last field of a split: the text after the last separator. *)
Lemma split_last (sep : char) (s : str) :
  final_segment sep s (last_item (split sep s)).
Proof.
  unfold final_segment. split.
  - pose proof (split_fields sep s) as Hf. pose proof (split_not_nil sep s) as Hne.
    unfold last_item. rewrite Forall_forall in Hf. apply Hf.
    destruct (split sep s) as [|f fields]; [contradiction|].
    clear. revert f. induction fields as [|g fields IH]; intros f; [left; reflexivity|].
    right. apply IH.
  - destruct (join_last sep (split_not_nil sep s)) as (before & Hjoin & Hbefore).
    rewrite join_split in Hjoin. exists before. auto.
Qed.

(** C8, as it holds: every record that [crawl_sitemap_index] returns comes
    from a fetched entry document.  When that document lists no child
    sitemap, the record's [source_sitemap] is the literal
    [sitemap_index.xml]; when it lists some, the record was extracted from
    the document fetched at the resolved URL of one of the children, and its
    [source_sitemap] is what follows the last [/] of that URL, a query
    string or a fragment included. *)
Theorem C8_source_label {E : External} (self : SitemapCrawler)
  (sitemap_index_url : str) (w : World) (data : list URLRecord) (w' : World)
  (r : URLRecord) :
  crawl_sitemap_index self sitemap_index_url w = (Ok data, w') ->
  In r data ->
  exists (u0 : str) (root : Element) (sitemap_urls : list str),
    resolves self sitemap_index_url u0
    /\ document_of self (fst (session_get (net w) u0 30)) = Some root
    /\ _extract_sitemap_urls root = Ok sitemap_urls
    /\ match sitemap_urls with
       | [] => source_sitemap r = py "sitemap_index.xml"
       | _ :: _ =>
           exists child_url abs_url na nb o doc records,
             In child_url sitemap_urls
             /\ resolves self child_url abs_url
             /\ session_get na abs_url 30 = (o, nb)
             /\ document_of self o = Some doc
             /\ _extract_url_data doc (source_sitemap r) = Ok records
             /\ In r records
             /\ final_segment (ch "/") abs_url (source_sitemap r)
       end.
Proof.
  intros Hrun Hr. apply crawl_sitemap_index_run in Hrun.
  destruct Hrun as (u0 & evs & Habs & _ & Hcase).
  destruct (document_of self (fst (session_get (net w) u0 30))) as [root|] eqn:Hdoc.
  - exists u0, root, (index_urls root).
    split; [exact Habs|]. split; [exact Hdoc|].
    split; [apply extract_sitemap_urls_eq|].
    destruct (index_urls root) as [|child urls] eqn:Hurls; cbn [truthy] in Hcase.
    + destruct Hcase as [Hx _].
      exact (proj2 (@extract_url_data_in _ _ _ _ Hx Hr)).
    + destruct Hcase as (rest & _ & _ & Hc).
      destruct (contributions_in r Hc Hr)
        as (c' & a' & na & nb & o' & doc' & recs' & Hin & Ha & Hget & Hd & Hx & Hrec).
      pose proof (proj2 (@extract_url_data_in _ _ _ _ Hx Hrec)) as Hsrc.
      exists c', a', na, nb, o', doc', recs'.
      rewrite Hsrc. repeat split; try assumption; apply split_last.
  - destruct Hcase as [-> _]. contradiction.
Qed.

Lemma C8_source_label_witness :
  exists (data : list URLRecord) (r : URLRecord),
    fst (crawl_sitemap_index (E := ex_com) main_crawler
           (py "https://ex.com/sitemap_index.xml") (start ex_com tt)) = Ok data
    /\ In r data
    /\ source_sitemap r = py "s1.xml"
    /\ exists (u0 : str) (root : Element) (sitemap_urls : list str),
         document_of (E := ex_com) main_crawler (fst (session_get (net (start ex_com tt)) u0 30))
         = Some root
         /\ _extract_sitemap_urls root = Ok sitemap_urls.
Proof.
  pose (run := crawl_sitemap_index (E := ex_com) main_crawler
                 (py "https://ex.com/sitemap_index.xml") (start ex_com tt)).
  pose (r := {| url := py "https://ex.com/a";
                last_modified := py "2024-01-01";
                source_sitemap := py "s1.xml" |}).
  assert (Hrun : run = (Ok [r], snd run)) by (vm_compute; reflexivity).
  exists [r], r. split; [reflexivity|]. split; [left; reflexivity|].
  split; [reflexivity|].
  destruct (@C8_source_label ex_com main_crawler _ _ _ _ r Hrun (or_introl eq_refl))
    as (u0 & root & urls & _ & Hdoc & Hurls & _).
  exists u0, root, urls. split; assumption.
Defined.

(** C8 fails as stated: for a child URL with a query string, the label is
    the text after the last [/], query string included, and not the final
    segment of the URL's path. *)
Lemma C8_query_string_in_label :
  let child_url := py "https://shop.com/sitemap_products_1.xml?from=1&to=2" in
  exists data w' r,
    crawl_sitemap_index (E := shop_com) main_crawler
      (py "https://shop.com/sitemap.xml") (start shop_com tt) = (Ok data, w')
    /\ In r data
    /\ _extract_sitemap_urls shop_index = Ok [child_url]
    /\ _make_absolute_url (E := shop_com) main_crawler child_url = Ok child_url
    /\ final_path_segment child_url = py "sitemap_products_1.xml"
    /\ source_sitemap r = py "sitemap_products_1.xml?from=1&to=2".
Proof.
  eexists; eexists; eexists.
  split; [vm_compute; reflexivity|].
  split; [left; reflexivity|].
  repeat split; vm_compute; reflexivity.
Qed.

(** ** C9: the fetches of an index *)







(** ** The model on small inputs *)

Example strip_example : strip (py "  a b ") = py "a b".
Proof. reflexivity. Qed.

Example split_example :
  split (ch "/") (py "https://ex.com/s1.xml")
  = [py "https:"; []; py "ex.com"; py "s1.xml"].
Proof. reflexivity. Qed.

Example str_of_nat_example : str_of_nat 120 = py "120" /\ str_of_nat 0 = py "0".
Proof. split; reflexivity. Qed.

(** Upper case sorts before lower case: the order is on code points. *)
Example case_sensitive_order :
  map url (sorted [record "https://a.com/y"; record "https://B.com/x"] url)
  = [py "https://B.com/x"; py "https://a.com/y"].
Proof. reflexivity. Qed.

(** The children of nested [<sitemap>] elements come entry by entry. *)
Example findall_nested :
  findall
    (element (py "sitemapindex")
       [element (py "sitemap")
          [leaf (py "loc") (py "a");
           element (py "sitemap") [leaf (py "loc") (py "b")];
           leaf (py "loc") (py "c")]])
    (py ".//sitemap/loc") []
  = Ok [leaf (py "loc") (py "a"); leaf (py "loc") (py "c"); leaf (py "loc") (py "b")].
Proof. reflexivity. Qed.

Example findall_unknown_prefix :
  findall ex_index (py ".//ns:sitemap/ns:loc") []
  = Raise (SyntaxError (py "prefix 'ns' not found in prefix map")).
Proof. reflexivity. Qed.

(** An index whose first child is missing and whose second child has one
    entry: one record, labelled with the second child's file name. *)
Example url_path_examples :
  url_path (py "https://ex.com/maps/s1.xml?page=2#top") = py "/maps/s1.xml"
  /\ url_path (py "https://ex.com") = []
  /\ final_path_segment (py "https://ex.com/maps/s1.xml") = py "s1.xml".
Proof. repeat split; reflexivity. Qed.

Example crawl_ex_com :
  fst (crawl_sitemap_index (E := ex_com) main_crawler
         (py "https://ex.com/sitemap_index.xml") (start ex_com tt))
  = Ok [{| url := py "https://ex.com/a";
           last_modified := py "2024-01-01";
           source_sitemap := py "s1.xml" |}].
Proof. vm_compute. reflexivity. Qed.

(** * Further properties of the module *)

(** ** [__init__] and [_extract_text] *)

Lemma lstrip_chars_split (chars s : str) :
  exists dropped,
    s = dropped ++ lstrip_chars chars s
    /\ Forall (fun c => existsb (N.eqb c) chars = true) dropped
    /\ match lstrip_chars chars s with
       | [] => True
       | c :: _ => existsb (N.eqb c) chars = false
       end.
Proof.
  induction s as [|c s IH]; [exists []; repeat split; constructor|].
  destruct IH as (dropped & Hs & Hall & Hhd).
  cbn [lstrip_chars]. destruct (existsb (N.eqb c) chars) eqn:Hc.
  - exists (c :: dropped). split; [simpl; f_equal; exact Hs|].
    split; [constructor; assumption | exact Hhd].
  - exists []. repeat split; [constructor | exact Hc].
Qed.

(** X1: the crawler keeps the base URL without its trailing slashes, and
    nothing else of it is changed; the delay is kept as given. *)
Theorem init_strips_trailing_slashes (base : str) (d : float) :
  exists slashes : str,
    base = base_url (__init__ base d) ++ slashes
    /\ Forall (fun c => c = ch "/") slashes
    /\ (forall p : str, base_url (__init__ base d) <> p ++ [ch "/"])
    /\ delay (__init__ base d) = d.
Proof.
  cbn [__init__ base_url delay]. unfold rstrip_chars.
  destruct (lstrip_chars_split (py "/") (rev base)) as (dropped & Hs & Hall & Hhd).
  exists (rev dropped). split; [|split; [|split]].
  - apply (f_equal (@rev char)) in Hs. rewrite rev_involutive, rev_app_distr in Hs.
    exact Hs.
  - apply Forall_rev. eapply Forall_impl; [|exact Hall].
    intros c Hc. cbn in Hc. rewrite orb_false_r in Hc. apply N.eqb_eq in Hc. exact Hc.
  - intros p Hp. apply (f_equal (@rev char)) in Hp.
    rewrite rev_involutive, rev_app_distr in Hp. rewrite Hp in Hhd.
    cbn in Hhd. discriminate Hhd.
  - reflexivity.
Qed.

Lemma lstrip_split (s : str) :
  exists a, s = a ++ lstrip s /\ whitespace_only a = true.
Proof.
  induction s as [|c s IH]; [exists []; auto|].
  destruct IH as (a & Hs & Ha).
  cbn [lstrip]. destruct (isspace c) eqn:Hc.
  - exists (c :: a). split; [simpl; f_equal; exact Hs|].
    cbn. rewrite Hc. exact Ha.
  - exists []. auto.
Qed.

Lemma last_rev_cons (c d : char) (r : str) : last (rev (c :: r)) d = c.
Proof. simpl. apply last_last. Qed.

Lemma strip_split (s : str) :
  exists a b,
    s = a ++ strip s ++ b
    /\ whitespace_only a = true /\ whitespace_only b = true
    /\ stripped (strip s).
Proof.
  unfold strip, rstrip.
  destruct (lstrip_split s) as (a & Hs & Ha).
  destruct (lstrip_split (rev (lstrip s))) as (b & Hr & Hb).
  pose proof (lstrip_head s) as Hfirst. pose proof (lstrip_head (rev (lstrip s))) as Hlast.
  apply (f_equal (@rev char)) in Hr. rewrite rev_involutive, rev_app_distr in Hr.
  exists a, (rev b). split; [|split; [|split]].
  - rewrite <- Hr. exact Hs.
  - exact Ha.
  - rewrite whitespace_only_rev. exact Hb.
  - destruct (lstrip (rev (lstrip s))) as [|c r] eqn:Hl; [exact I|].
    unfold stripped. destruct (rev (c :: r)) as [|x t] eqn:Hx.
    + exact I.
    + split.
      * rewrite Hr in Hfirst. cbn [app] in Hfirst. exact Hfirst.
      * rewrite <- Hx. rewrite last_rev_cons. exact Hlast.
Qed.

Lemma extract_text_stripped (element : option Element) :
  stripped (_extract_text element).
Proof.
  destruct element as [e|]; cbn [_extract_text]; [|exact I].
  destruct (text e) as [t|]; [|exact I].
  destruct (truthy t); [|exact I].
  destruct (strip_split t) as (a & b & _ & _ & _ & Hst). exact Hst.
Qed.

(** X2: the text that [_extract_text] returns is the element's text with
    whitespace, and only whitespace, taken off both ends; an absent element
    or an absent text gives the empty string. *)
Theorem extract_text_is_stripped_text (element : option Element) :
  stripped (_extract_text element)
  /\ exists a b : str,
       whitespace_only a = true
       /\ whitespace_only b = true
       /\ a ++ _extract_text element ++ b
          = match element with
            | Some e => match text e with Some t => t | None => [] end
            | None => []
            end.
Proof.
  destruct element as [e|]; cbn [_extract_text];
    [|split; [exact I | exists [], []; auto]].
  destruct (text e) as [t|]; [|split; [exact I | exists [], []; auto]].
  destruct t as [|c t]; cbn [truthy]; [split; [exact I | exists [], []; auto]|].
  destruct (strip_split (c :: t)) as (a & b & Hs & Ha & Hb & Hst).
  split; [exact Hst|]. exists a, b. auto.
Qed.

(** ** The two extraction operations *)

Lemma filter_In_sitemap_locs (c : convention) (root : Element) (l : Element) :
  In l (sitemap_locs c root) ->
  exists s, In s (descendants root)
            /\ tag s = qname c (py "sitemap")
            /\ In l (children s)
            /\ tag l = qname c (py "loc").
Proof.
  unfold sitemap_locs, sitemap_entries. rewrite in_flat_map.
  intros (s & Hs & Hl). apply filter_In in Hs, Hl.
  destruct Hs as [Hs Hts], Hl as [Hl Htl].
  apply eqb_eq in Hts, Htl. exists s. auto.
Qed.


(** X3: [_extract_sitemap_urls] never raises; every URL it returns is
    non-empty, has no whitespace at either end, and is the text of a
    [<loc>] child of a [<sitemap>] element strictly below the root, all in
    one of the two conventions. *)
Theorem extract_sitemap_urls_clean (root : Element) :
  exists (urls : list str) (c : convention),
    _extract_sitemap_urls root = Ok urls
    /\ forall u : str,
         In u urls ->
         u <> [] /\ stripped u
         /\ exists s l : Element,
              In s (descendants root)
              /\ tag s = qname c (py "sitemap")
              /\ In l (children s)
              /\ tag l = qname c (py "loc")
              /\ u = _extract_text (Some l).
Proof.
  exists (index_urls root),
         (if truthy (sitemap_texts Namespaced root) then Namespaced else Bare).
  split; [apply extract_sitemap_urls_eq|].
  intros u Hu. unfold index_urls in Hu.
  assert (Hin : In u (filter truthy
                        (sitemap_texts
                           (if truthy (sitemap_texts Namespaced root)
                            then Namespaced else Bare) root)))
    by (destruct (truthy (sitemap_texts Namespaced root)); exact Hu).
  clear Hu. apply filter_In in Hin. destruct Hin as [Hin Hne].
  unfold sitemap_texts in Hin at 1. apply in_map_iff in Hin.
  destruct Hin as (l & <- & Hl).
  split; [apply truthy_true; exact Hne|].
  split; [apply extract_text_stripped|].
  destruct (filter_In_sitemap_locs _ _ _ Hl) as (s & Hs & Hts & Hls & Htl).
  exists s, l. auto.
Qed.

(** X4: [_extract_url_data] never raises; every record it returns carries
    the given source label, a non-empty [url] and a [last_modified] (empty
    when the entry has no [<lastmod>]), both without whitespace at either
    end, and comes from a [<url>] element strictly below the root: a root
    that is itself a [<url>] element is not an entry. *)
Theorem extract_url_data_records (root : Element) (source : str) :
  exists (data : list URLRecord) (c : convention),
    _extract_url_data root source = Ok data
    /\ forall r : URLRecord,
         In r data ->
         source_sitemap r = source
         /\ url r <> [] /\ stripped (url r) /\ stripped (last_modified r)
         /\ exists e : Element,
              In e (descendants root)
              /\ tag e = qname c (py "url")
              /\ url r = _extract_text (child c (py "loc") e)
              /\ last_modified r = _extract_text (child c (py "lastmod") e).
Proof.
  exists (pass_records (used_convention root source) root source),
         (used_convention root source).
  split; [apply extract_url_data_eq|].
  intros r Hr. apply pass_records_in in Hr. destruct Hr as (e & He & Hloc & ->).
  cbn [record_of source_sitemap url last_modified].
  split; [reflexivity|].
  split; [apply truthy_true; exact Hloc|].
  split; [apply extract_text_stripped|].
  split; [apply extract_text_stripped|].
  unfold url_entries in He. apply filter_In in He. destruct He as [He Ht].
  apply eqb_eq in Ht. exists e. auto.
Qed.

(** A document whose root is the only [<url>] element has no entry. *)
Example root_is_not_an_entry :
  _extract_url_data (element (py "url") [leaf (py "loc") (py "https://ex.com/a")])
                    (py "s.xml")
  = Ok [].
Proof. reflexivity. Qed.

(** ** Fetching and crawling *)

Lemma writes_app (evs evs' : list event) :
  writes (evs ++ evs') = writes evs ++ writes evs'.
Proof. apply flat_map_app. Qed.

Lemma printed_app (evs evs' : list event) :
  printed (evs ++ evs') = printed evs ++ printed evs'.
Proof. apply flat_map_app. Qed.

Lemma paced_nil (self : SitemapCrawler) : paced self [].
Proof. repeat split; constructor. Qed.

Lemma paced_app (self : SitemapCrawler) (evs evs' : list event) :
  paced self evs -> paced self evs' -> paced self (evs ++ evs').
Proof.
  intros (Hd & Hn & Hw) (Hd' & Hn' & Hw'). unfold paced.
  rewrite sleeps_app, requests_app, writes_app, !length_app, Hw, Hw'.
  split; [apply Forall_app; auto|]. split; [lia | reflexivity].
Qed.

Lemma paced_printed (self : SitemapCrawler) (line : str) : paced self [Printed line].
Proof. repeat split; constructor. Qed.

Section MoreFetchProperties.
Context {E : External}.
Variable self : SitemapCrawler.

Lemma paced_fetch (u : str) (o : Result Response) :
  paced self (Printed (py "Fetching: " ++ u) :: HttpGet u 30 :: after_request self u o).
Proof.
  unfold paced, after_request.
  destruct (fetch_body self o) as [root|e']; [|destruct (caught e')];
    (destruct o as [response|e]; [destruct (http_error response)|]);
    repeat split; cbn; auto.
Qed.

(** What leaves a fetch is what its body raised, of a class that is not
    caught. *)
Lemma fetch_result_raise (o : Result Response) (e : exn) :
  fetch_result self o = Raise e <-> fetch_body self o = Raise e /\ caught e = false.
Proof.
  unfold fetch_result. destruct (fetch_body self o) as [root|e'].
  - split; [discriminate | intros [H _]; discriminate].
  - destruct (caught e') eqn:Hc.
    + split; [discriminate | intros [[= ->] H]; congruence].
    + split; [intros [= ->]; auto | intros [[= ->] _]; reflexivity].
Qed.

Lemma printed_after_request (u : str) (o : Result Response) :
  printed (after_request self u o)
  = match fetch_result self o with
    | Ok None =>
        match fetch_body self o with
        | Raise e => [py "Error processing " ++ u ++ py ": " ++ exn_message e]
        | Ok _ => []
        end
    | _ => []
    end.
Proof.
  unfold after_request, fetch_result. rewrite printed_app.
  assert (H1 : printed match o with
                       | Ok response =>
                           match http_error response with
                           | None => [Slept (delay self)]
                           | Some _ => []
                           end
                       | Raise _ => []
                       end = []).
  { destruct o as [response|e]; [|reflexivity].
    destruct (http_error response); reflexivity. }
  rewrite H1. destruct (fetch_body self o) as [root|e]; [reflexivity|].
  destruct (caught e); reflexivity.
Qed.

(** X5: one call of [_fetch_xml] makes exactly one request, for the URL it
    was given and with the timeout of 30 (no retry), however it ends.  It
    returns the document that the answer leads to; it returns [None]
    exactly when the fetch failed with an exception of the two classes it
    catches, and then, and only then, prints an error line naming the URL;
    an exception of any other class (of the session, of [time.sleep], of
    the parser) leaves it, with no error line. *)
Theorem fetch_xml_one_request (u : str) (w : World) :
  let o := fst (session_get (net w) u 30) in
  exists evs : list event,
    snd (_fetch_xml self u w)
    = {| net := snd (session_get (net w) u 30); trace := trace w ++ evs |}
    /\ (forall u' t, In (HttpGet u' t) evs -> u' = u /\ t = 30%N)
    /\ requests evs = [u]
    /\ (fetch_failure self o <-> fst (_fetch_xml self u w) = Ok None)
    /\ match fst (_fetch_xml self u w) with
       | Ok (Some root) =>
           document_of self o = Some root
           /\ printed evs = [py "Fetching: " ++ u]
       | Ok None =>
           exists msg : str,
             printed evs = [py "Fetching: " ++ u;
                            py "Error processing " ++ u ++ py ": " ++ msg]
       | Raise e =>
           fetch_body self o = Raise e /\ caught e = false
           /\ printed evs = [py "Fetching: " ++ u]
       end.
Proof.
  intros o. rewrite fetch_xml_run. fold o. cbn [fst snd].
  eexists. split; [reflexivity|].
  split; [|split; [|split; [symmetry; apply fetch_result_none|]]].
  - intros u' t Hin. destruct Hin as [Hin|[Hin|Hin]]; [discriminate| |].
    + injection Hin as <- <-. auto.
    + exfalso. assert (Hreq : In u' (requests (after_request self u o))).
      { unfold requests. apply in_flat_map. exists (HttpGet u' t).
        split; [exact Hin | left; reflexivity]. }
      rewrite requests_after_request in Hreq. exact Hreq.
  - cbn [requests flat_map app]. rewrite requests_after_request. reflexivity.
  - change (printed (Printed (py "Fetching: " ++ u) :: HttpGet u 30
                     :: after_request self u o))
      with ((py "Fetching: " ++ u) :: printed (after_request self u o)).
    rewrite printed_after_request.
    destruct (fetch_result self o) as [[root|]|e] eqn:Hres.
    + split; [apply fetch_result_some, Hres | reflexivity].
    + unfold fetch_result in Hres.
      destruct (fetch_body self o) as [root|e]; [discriminate|].
      eexists; reflexivity.
    + apply fetch_result_raise in Hres. destruct Hres as [Hb Hc]. auto.
Qed.

(** The events of the loop over the children, however it ends. *)
Lemma crawl_children_events (sitemap_urls : list str) :
  forall (acc : list URLRecord) (w : World) (res : Result (list URLRecord))
         (w' : World),
    crawl_children self sitemap_urls acc w = (res, w') ->
    exists evs, trace w' = trace w ++ evs /\ paced self evs.
Proof.
  induction sitemap_urls as [|child rest IH]; intros acc w res w' Hrun.
  - injection Hrun as <- <-. exists []. rewrite app_nil_r. split; [reflexivity|].
    apply paced_nil.
  - cbn [crawl_children] in Hrun. rewrite bind_run in Hrun. unfold lift at 1 in Hrun.
    destruct (_make_absolute_url self child) as [a|e] eqn:Habs.
    + rewrite bind_run, fetch_xml_run in Hrun.
      destruct (fetch_result _ _) as [[doc|]|e].
      * rewrite bind_run in Hrun. unfold lift at 1 in Hrun.
        rewrite extract_url_data_eq in Hrun.
        rewrite bind_run, print_run in Hrun. cbn [net trace] in Hrun.
        apply IH in Hrun. destruct Hrun as (evs & Htr & Hp). cbn [trace] in Htr.
        eexists. split; [rewrite Htr, <- !app_assoc; reflexivity|].
        apply paced_app; [apply paced_fetch|].
        apply paced_app; [apply paced_printed | exact Hp].
      * apply IH in Hrun. destruct Hrun as (evs & Htr & Hp). cbn [trace] in Htr.
        eexists. split; [rewrite Htr, <- !app_assoc; reflexivity|].
        apply paced_app; [apply paced_fetch | exact Hp].
      * injection Hrun as <- <-. cbn [trace].
        eexists. split; [reflexivity | apply paced_fetch].
    + injection Hrun as <- <-. exists []. rewrite app_nil_r.
      split; [reflexivity | apply paced_nil].
Qed.

(** The events of a run of [crawl_sitemap_index], however it ends. *)
Lemma crawl_sitemap_index_events (sitemap_index_url : str) (w : World) :
  exists evs : list event,
    trace (snd (crawl_sitemap_index self sitemap_index_url w)) = trace w ++ evs
    /\ paced self evs.
Proof.
  unfold crawl_sitemap_index. rewrite bind_run. unfold lift at 1.
  destruct (_make_absolute_url self sitemap_index_url) as [u0|e].
  - rewrite bind_run, print_run, bind_run, fetch_xml_run. cbn [net trace].
    destruct (fetch_result _ _) as [[root|]|e].
    + rewrite bind_run. unfold lift at 1. rewrite extract_sitemap_urls_eq.
      destruct (truthy (index_urls root)); cbn [negb].
      * rewrite bind_run, print_run. cbn [net trace].
        destruct (crawl_children self (index_urls root) [] _) as [res w'] eqn:Hrun.
        apply crawl_children_events in Hrun. destruct Hrun as (evs & Htr & Hp).
        cbn [snd trace] in Htr |- *.
        eexists. split; [rewrite Htr, <- !app_assoc; reflexivity|].
        apply paced_app; [apply paced_printed|].
        apply paced_app; [apply paced_fetch|].
        apply paced_app; [apply paced_printed | exact Hp].
      * rewrite bind_run, print_run. unfold lift. cbn [snd net trace].
        eexists. split; [rewrite <- !app_assoc; reflexivity|].
        apply paced_app; [apply paced_printed|].
        apply paced_app; [apply paced_fetch | apply paced_printed].
    + cbn [ret Monad_M snd trace].
      eexists. split; [rewrite <- !app_assoc; reflexivity|].
      apply paced_app; [apply paced_printed|].
      rewrite <- (app_nil_r (_ :: _ :: after_request _ _ _)).
      apply paced_app; [apply paced_fetch | apply paced_nil].
    + cbn [snd trace].
      eexists. split; [rewrite <- !app_assoc; reflexivity|].
      apply paced_app; [apply paced_printed|].
      rewrite <- (app_nil_r (_ :: _ :: after_request _ _ _)).
      apply paced_app; [apply paced_fetch | apply paced_nil].
  - cbn [snd]. exists []. rewrite app_nil_r. split; [reflexivity | apply paced_nil].
Qed.

(** X6: whatever the network answers and however the run ends (returning
    or raising), every sleep of [crawl_sitemap_index] lasts the configured
    delay, there are never more sleeps than requests, and no file is
    written. *)
Theorem crawl_is_paced (sitemap_index_url : str) (w : World) :
  exists evs : list event,
    trace (snd (crawl_sitemap_index self sitemap_index_url w)) = trace w ++ evs
    /\ Forall (fun d => d = delay self) (sleeps evs)
    /\ List.length (sleeps evs) <= List.length (requests evs)
    /\ writes evs = [].
Proof. exact (crawl_sitemap_index_events sitemap_index_url w). Qed.

End MoreFetchProperties.

Section MoreCrawlProperties.
Context {E : External}.
Variable self : SitemapCrawler.

(** X7: when the fetched entry document lists no child sitemap URL (no
    [<sitemap><loc>] at all, or only ones without text), it is read as a
    flat sitemap: the run returns the records of that very document,
    labelled [sitemap_index.xml], after the single request for it. *)
Theorem crawl_flat_sitemap (sitemap_index_url u0 : str) (w : World)
  (o : Result Response) (n1 : Net) (root : Element) :
  resolves self sitemap_index_url u0 ->
  session_get (net w) u0 30 = (o, n1) ->
  document_of self o = Some root ->
  _extract_sitemap_urls root = Ok [] ->
  exists (data : list URLRecord) (evs : list event),
    crawl_sitemap_index self sitemap_index_url w
    = (Ok data, {| net := n1; trace := trace w ++ evs |})
    /\ _extract_url_data root (py "sitemap_index.xml") = Ok data
    /\ requests evs = [u0]
    /\ In (py "Processing as regular sitemap") (printed evs).
Proof.
  intros Habs Hget Hdoc Hurls. unfold crawl_sitemap_index.
  rewrite bind_run. unfold lift at 1. unfold resolves in Habs. rewrite Habs.
  rewrite bind_run, print_run, bind_run, fetch_xml_run. cbn [net trace].
  rewrite Hget. cbn [fst snd]. apply fetch_result_some in Hdoc. rewrite Hdoc.
  rewrite bind_run. unfold lift at 1. rewrite Hurls. cbn [truthy negb].
  rewrite bind_run, print_run. unfold lift. cbn [net trace].
  rewrite extract_url_data_eq.
  eexists; eexists. split; [rewrite <- !app_assoc; reflexivity|].
  split; [reflexivity|]. split.
  - rewrite !requests_app. cbn [requests flat_map app].
    rewrite requests_after_request. reflexivity.
  - rewrite !printed_app. apply in_or_app. right. apply in_or_app. right.
    left. reflexivity.
Qed.

(** X8: when the fetched entry document lists child sitemap URLs and the
    run returns, the requests are the entry URL and then the resolved child
    URLs, one request per listed URL in document order (a URL listed twice
    is fetched twice) and nothing else: the entry document's own [<url>]
    entries are not read and what a child document lists is not followed. *)
Theorem crawl_index_requests (sitemap_index_url u0 : str) (w : World)
  (o : Result Response) (n1 : Net) (root : Element) (sitemap_urls : list str)
  (data : list URLRecord) (w' : World) :
  resolves self sitemap_index_url u0 ->
  session_get (net w) u0 30 = (o, n1) ->
  document_of self o = Some root ->
  _extract_sitemap_urls root = Ok sitemap_urls ->
  sitemap_urls <> [] ->
  crawl_sitemap_index self sitemap_index_url w = (Ok data, w') ->
  exists (evs : list event) (fetched : list str),
    trace w' = trace w ++ evs
    /\ requests evs = u0 :: fetched
    /\ Forall2 (resolves self) sitemap_urls fetched
    /\ contributions self sitemap_urls n1 data (net w').
Proof.
  intros Habs Hget Hdoc Hurls Hne Hrun.
  apply crawl_sitemap_index_run in Hrun.
  destruct Hrun as (u0' & evs & Habs' & Htr & Hcase).
  unfold resolves in Habs, Habs'. rewrite Habs in Habs'. injection Habs' as <-.
  rewrite Hget in Hcase. cbn [fst snd] in Hcase. rewrite Hdoc in Hcase.
  rewrite extract_sitemap_urls_eq in Hurls. injection Hurls as Hurls.
  rewrite Hurls in Hcase. apply truthy_true in Hne. rewrite Hne in Hcase.
  destruct Hcase as (rest & Hreq & Hall & Hc).
  exists evs, rest. auto.
Qed.



Lemma make_absolute_url_empty_base (u : str) :
  base_url self = [] -> _make_absolute_url self u = Ok u.
Proof.
  intros Hbase. unfold _make_absolute_url, urljoin. rewrite Hbase.
  destruct (startswith (py "http") u); reflexivity.
Qed.



(** X16: the sleep stands under [try], but what [time.sleep] raises for a
    delay it refuses (a negative one, a NaN, one too large) is not caught:
    with such a delay the first response that passes the status check makes
    [crawl_sitemap_index] raise, after the one request and the call of
    [time.sleep], with no error line and before the body is parsed. *)
Theorem crawl_refused_delay_raises (sitemap_index_url u0 : str) (w : World)
  (response : Response) (n1 : Net) (e : exn) :
  resolves self sitemap_index_url u0 ->
  session_get (net w) u0 30 = (Ok response, n1) ->
  http_error response = None ->
  sleep_error (delay self) = Some e ->
  crawl_sitemap_index self sitemap_index_url w
  = (Raise e,
     {| net := n1;
        trace := trace w
                 ++ [Printed (py "Starting crawl from: " ++ u0);
                     Printed (py "Fetching: " ++ u0);
                     HttpGet u0 30;
                     Slept (delay self)] |})
  /\ caught e = false.
Proof.
  intros Habs Hget Hok Hd.
  pose proof (sleep_error_uncaught _ Hd) as Hc. split; [|exact Hc].
  unfold crawl_sitemap_index. rewrite bind_run. unfold lift at 1.
  unfold resolves in Habs. rewrite Habs.
  rewrite bind_run, print_run, bind_run, fetch_xml_run. cbn [net trace].
  rewrite Hget. cbn [fst snd].
  unfold fetch_result, after_request, fetch_body. cbn [bind Monad_Result].
  rewrite Hok, Hd, Hc. cbn [app]. rewrite <- !app_assoc. reflexivity.
Qed.

End MoreCrawlProperties.

Lemma crawl_flat_sitemap_witness :
  exists (data : list URLRecord) (evs : list event),
    crawl_sitemap_index (E := relative_site) main_crawler
      (py "https://ex.com/sitemap.xml") (start relative_site tt)
    = (Ok data, @Build_World relative_site tt ([] ++ evs))
    /\ _extract_url_data relative_urlset (py "sitemap_index.xml") = Ok data
    /\ requests evs = [py "https://ex.com/sitemap.xml"].
Proof.
  destruct (@crawl_flat_sitemap relative_site main_crawler
              (py "https://ex.com/sitemap.xml") (py "https://ex.com/sitemap.xml")
              (start relative_site tt)
              (page "urlset" (py "https://ex.com/sitemap.xml")) tt relative_urlset
              eq_refl eq_refl eq_refl eq_refl)
    as (data & evs & Hrun & Hdata & Hreq & _).
  exists data, evs. repeat split; assumption.
Defined.

Lemma crawl_index_requests_witness :
  exists (evs : list event) (fetched : list str),
    trace (snd (crawl_sitemap_index (E := nested_com) main_crawler
                  (py "https://ex.com/sitemap_index.xml") (start nested_com tt)))
    = [] ++ evs
    /\ requests evs = py "https://ex.com/sitemap_index.xml" :: fetched
    /\ Forall2 (resolves (E := nested_com) main_crawler)
         [py "https://ex.com/inner.xml"; py "https://ex.com/inner.xml"] fetched.
Proof.
  pose (r := {| url := py "https://ex.com/a"; last_modified := [];
                source_sitemap := py "inner.xml" |}).
  assert (Hrun : crawl_sitemap_index (E := nested_com) main_crawler
                   (py "https://ex.com/sitemap_index.xml") (start nested_com tt)
                 = (Ok [r; r],
                    snd (crawl_sitemap_index (E := nested_com) main_crawler
                           (py "https://ex.com/sitemap_index.xml")
                           (start nested_com tt))))
    by (vm_compute; reflexivity).
  destruct (@crawl_index_requests nested_com main_crawler
              (py "https://ex.com/sitemap_index.xml")
              (py "https://ex.com/sitemap_index.xml")
              (start nested_com tt)
              (page "index" (py "https://ex.com/sitemap_index.xml")) tt nested_index
              [py "https://ex.com/inner.xml"; py "https://ex.com/inner.xml"]
              [r; r]
              (snd (crawl_sitemap_index (E := nested_com) main_crawler
                      (py "https://ex.com/sitemap_index.xml") (start nested_com tt)))
              eq_refl eq_refl eq_refl eq_refl)
    as (evs & fetched & Htr & Hreq & Hall & _);
    [discriminate | exact Hrun |].
  exists evs, fetched. repeat split; assumption.
Defined.



Lemma crawl_refused_delay_raises_witness :
  fst (crawl_sitemap_index (E := ex_com) (__init__ (py "") (-1.0)%float)
         (py "https://ex.com/sitemap_index.xml") (start ex_com tt))
  = Raise (ValueError (py "sleep length must be non-negative")).
Proof.
  destruct (@crawl_refused_delay_raises ex_com (__init__ (py "") (-1.0)%float)
              (py "https://ex.com/sitemap_index.xml")
              (py "https://ex.com/sitemap_index.xml") (start ex_com tt)
              (response 200 (py "OK") "index" (py "https://ex.com/sitemap_index.xml"))
              tt (ValueError (py "sleep length must be non-negative"))
              eq_refl eq_refl eq_refl eq_refl)
    as [Hrun _].
  rewrite Hrun. reflexivity.
Defined.

(** ** [save_to_csv] *)

Section SaveProperties.
Context {E : External}.
Variable self : SitemapCrawler.

(** With no record, [save_to_csv] writes no file: it prints
    [No URLs to save] and does nothing else. *)
Lemma save_nothing (filename : str) (w : World) :
  save_to_csv self [] filename w
  = (Ok tt, {| net := net w; trace := trace w ++ [Printed (py "No URLs to save")] |}).
Proof. reflexivity. Qed.

(** X11: [save_to_csv] drops and merges nothing: with records to save it
    writes one file, the header and one row per record, and for every URL
    the rows of the records with that URL are there, in the order in which
    these records were given; it makes no request. *)
Theorem save_keeps_duplicates (url_data : list URLRecord) (filename : str)
  (w : World) :
  url_data <> [] ->
  exists (rows : list URLRecord) (evs : list event),
    snd (save_to_csv self url_data filename w)
    = {| net := net w; trace := trace w ++ evs |}
    /\ writes evs = [(filename, fieldnames :: map csv_row rows)]
    /\ requests evs = []
    /\ List.length rows = List.length url_data
    /\ forall u : str,
         filter (fun r => Py.eqb (url r) u) rows
         = filter (fun r => Py.eqb (url r) u) url_data.
Proof.
  intros Hne. exists (sorted url_data url). eexists.
  split; [|split; [|split; [|split]]].
  - unfold save_to_csv. apply truthy_true in Hne. rewrite Hne. cbn [negb].
    rewrite bind_run. unfold emit at 1. rewrite print_run. cbn [snd net trace].
    rewrite <- app_assoc. reflexivity.
  - reflexivity.
  - reflexivity.
  - symmetry. apply Permutation_length, sorted_perm.
  - intros u. apply sorted_stable.
Qed.

End SaveProperties.

Lemma save_keeps_duplicates_witness :
  exists (rows : list URLRecord) (evs : list event),
    snd (save_to_csv (E := offline) main_crawler sample_records (py "o.csv")
           (start offline tt))
    = @Build_World offline tt ([] ++ evs)
    /\ writes evs = [(py "o.csv", fieldnames :: map csv_row rows)]
    /\ List.length rows = 3.
Proof.
  destruct (@save_keeps_duplicates offline main_crawler sample_records (py "o.csv")
              (start offline tt))
    as (rows & evs & Hrun & Hw & _ & Hlen & _); [discriminate|].
  exists rows, evs. repeat split; assumption.
Defined.

(** ** [print_statistics] *)

Lemma dict_get_set (d : dict) (k k' : str) (v default : nat) :
  dict_get (dict_set d k v) k' default
  = if Py.eqb k k' then v else dict_get d k' default.
Proof.
  induction d as [|[k0 v0] d IH]; cbn [dict_set dict_get].
  - destruct (Py.eqb k k'); reflexivity.
  - destruct (Py.eqb k0 k) eqn:H0.
    + apply eqb_eq in H0. subst k0. cbn [dict_get].
      destruct (Py.eqb k k'); reflexivity.
    + cbn [dict_get]. destruct (Py.eqb k0 k') eqn:H1; [|exact IH].
      apply eqb_eq in H1. subst k0. rewrite eqb_false; [reflexivity|].
      intros ->. rewrite eqb_refl in H0. discriminate.
Qed.

Lemma dict_set_keys (d : dict) (k : str) (v : nat) :
  (In k (map fst d) /\ map fst (dict_set d k v) = map fst d)
  \/ (~ In k (map fst d) /\ map fst (dict_set d k v) = map fst d ++ [k]).
Proof.
  induction d as [|[k0 v0] d IH]; cbn [dict_set map fst].
  - right. split; [intros [] | reflexivity].
  - destruct (Py.eqb k0 k) eqn:H0.
    + apply eqb_eq in H0. subst k0. left. split; [left; reflexivity | reflexivity].
    + assert (Hne : k0 <> k) by (intros ->; rewrite eqb_refl in H0; discriminate).
      cbn [map fst]. destruct IH as [[Hin Heq]|[Hnin Heq]].
      * left. split; [right; exact Hin | rewrite Heq; reflexivity].
      * right. split; [intros [H|H]; [exact (Hne H) | exact (Hnin H)]|].
        rewrite Heq. reflexivity.
Qed.

Lemma dict_set_NoDup (d : dict) (k : str) (v : nat) :
  NoDup (map fst d) -> NoDup (map fst (dict_set d k v)).
Proof.
  intros Hd. destruct (dict_set_keys d k v) as [[_ ->]|[Hnin ->]]; [exact Hd|].
  apply NoDup_app; [exact Hd | repeat constructor; intros [] |].
  intros x Hx [<-|[]]. exact (Hnin Hx).
Qed.

Lemma dict_set_In_key (d : dict) (k k' : str) (v : nat) :
  In k' (map fst (dict_set d k v)) <-> In k' (map fst d) \/ k' = k.
Proof.
  destruct (dict_set_keys d k v) as [[Hin ->]|[_ ->]].
  - split; [auto | intros [H| ->]; assumption].
  - rewrite in_app_iff. cbn. intuition.
Qed.

Lemma dict_set_sum (d : dict) (k : str) :
  list_sum (map snd (dict_set d k (dict_get d k 0 + 1))) = list_sum (map snd d) + 1.
Proof.
  unfold list_sum. induction d as [|[k0 v0] d IH]; [reflexivity|].
  cbn [dict_set dict_get]. destruct (Py.eqb k0 k); cbn [map snd fold_right].
  - lia.
  - rewrite IH. lia.
Qed.

Lemma dict_In (d : dict) (k : str) (c default : nat) :
  NoDup (map fst d) ->
  (In (k, c) d <-> In k (map fst d) /\ dict_get d k default = c).
Proof.
  induction d as [|[k0 v0] d IH]; cbn [map fst dict_get In]; intros Hd.
  - tauto.
  - inversion Hd as [|? ? Hnin Hd']; subst. specialize (IH Hd').
    destruct (Py.eqb k0 k) eqn:H0.
    + apply eqb_eq in H0. subst k0. split.
      * intros [H|H]; [injection H as ->; auto|].
        exfalso. apply Hnin. apply in_map_iff. exists (k, c). auto.
      * intros [_ ->]. left. reflexivity.
    + assert (Hne : k0 <> k) by (intros ->; rewrite eqb_refl in H0; discriminate).
      split.
      * intros [H|H]; [injection H as H _; contradiction|].
        apply IH in H. destruct H as [Hin Hget]. auto.
      * intros [[H|H] Hget]; [contradiction|]. right. apply IH. auto.
Qed.

Lemma occurrences_In (k : str) (keys : list str) :
  In k keys <-> 1 <= occurrences k keys.
Proof.
  induction keys as [|k' keys IH]; cbn [In occurrences]; [lia|].
  destruct (Py.eqb k' k) eqn:H0.
  - apply eqb_eq in H0. split; [lia | auto].
  - assert (Hne : k' <> k) by (intros ->; rewrite eqb_refl in H0; discriminate).
    rewrite <- IH. cbn. tauto.
Qed.

(** What the counting leaves in the dict. *)
Lemma tally_spec (keys : list str) :
  forall d : dict,
    NoDup (map fst d) ->
    NoDup (map fst (tally keys d))
    /\ (forall k, dict_get (tally keys d) k 0 = dict_get d k 0 + occurrences k keys)
    /\ (forall k, In k (map fst (tally keys d)) <-> In k (map fst d) \/ In k keys)
    /\ list_sum (map snd (tally keys d)) = list_sum (map snd d) + List.length keys.
Proof.
  unfold tally. induction keys as [|k' keys IH]; intros d Hd; cbn [fold_left].
  - repeat split; cbn; auto; try lia. intros [H|[]]; exact H.
  - destruct (IH (dict_set d k' (dict_get d k' 0 + 1)) (dict_set_NoDup _ _ _ Hd))
      as (Hnd & Hget & Hkeys & Hsum).
    split; [exact Hnd|]. split; [|split].
    + intros k. rewrite Hget, dict_get_set. cbn [occurrences].
      destruct (Py.eqb k' k) eqn:H0; [|lia].
      apply eqb_eq in H0. subst k'. lia.
    + intros k. rewrite Hkeys, dict_set_In_key. cbn [In]. intuition.
    + rewrite Hsum, dict_set_sum. cbn [List.length]. lia.
Qed.

Lemma tally_breakdown (keys : list str) :
  NoDup (map fst (tally keys []))
  /\ (forall k c, In (k, c) (tally keys []) <-> In k keys /\ c = occurrences k keys)
  /\ list_sum (map snd (tally keys [])) = List.length keys.
Proof.
  destruct (tally_spec keys [] (NoDup_nil _)) as (Hnd & Hget & Hkeys & Hsum).
  split; [exact Hnd|]. split; [|exact Hsum].
  intros k c. rewrite (dict_In _ k c 0 Hnd), Hget, Hkeys. cbn. intuition.
Qed.

Lemma lex_le_refl (a : str) : lex_le a a.
Proof. apply ltb_false_iff, ltb_irrefl. Qed.

Lemma item_ltb_false (a b : str * nat) : item_ltb b a = false -> item_le a b.
Proof.
  unfold item_ltb, item_le. intros H. apply orb_false_iff in H.
  apply ltb_false_iff, H.
Qed.

Lemma item_ltb_true (a b : str * nat) : item_ltb a b = true -> item_le a b.
Proof.
  unfold item_ltb, item_le. intros H. apply orb_true_iff in H.
  destruct H as [H|H].
  - destruct (lex_le_total (fst a) (fst b)) as [Hle|Hle]; [exact Hle|].
    apply ltb_false_iff in Hle. congruence.
  - apply andb_true_iff in H. destruct H as [H _]. apply eqb_eq in H.
    rewrite H. apply lex_le_refl.
Qed.

Lemma insert_lt_perm {A : Type} (lt : A -> A -> bool) (x : A) (l : list A) :
  Permutation (x :: l) (insert_lt lt x l).
Proof.
  induction l as [|y l IH]; simpl; [apply Permutation_refl|].
  destruct (lt y x); [|apply Permutation_refl].
  eapply perm_trans; [apply perm_swap|]. apply perm_skip. exact IH.
Qed.

Lemma sorted_lt_perm {A : Type} (lt : A -> A -> bool) (l : list A) :
  Permutation l (sorted_lt lt l).
Proof.
  induction l as [|x l IH]; simpl; [constructor|].
  eapply perm_trans; [apply perm_skip; exact IH | apply insert_lt_perm].
Qed.

Lemma insert_items_sorted (x : str * nat) (l : list (str * nat)) :
  Sorted item_le l -> Sorted item_le (insert_lt item_ltb x l).
Proof.
  induction 1 as [|y l Hs IH Hhd]; simpl; [repeat constructor|].
  destruct (item_ltb y x) eqn:Hyx.
  - constructor; [exact IH|].
    destruct l as [|z l]; simpl; [constructor; apply item_ltb_true, Hyx|].
    destruct (item_ltb z x); constructor; [|apply item_ltb_true, Hyx].
    inversion Hhd; assumption.
  - constructor; [constructor; assumption|].
    constructor. apply item_ltb_false. exact Hyx.
Qed.

Lemma sorted_items_sorted (l : list (str * nat)) :
  Sorted item_le (sorted_lt item_ltb l).
Proof.
  induction l as [|x l IH]; simpl; [constructor|].
  apply insert_items_sorted. exact IH.
Qed.

Lemma list_sum_perm (l l' : list nat) : Permutation l l' -> list_sum l = list_sum l'.
Proof. induction 1; simpl; lia. Qed.

(** The sorted items of a tally are the breakdown of the keys. *)
Lemma sorted_tally_breakdown (keys : list str) :
  breakdown_of keys (sorted_lt item_ltb (tally keys [])).
Proof.
  destruct (tally_breakdown keys) as (Hnd & Hin & Hsum).
  pose proof (sorted_lt_perm item_ltb (tally keys [])) as Hperm.
  split; [apply sorted_items_sorted|]. split; [|split].
  - eapply Permutation_NoDup; [apply Permutation_map; exact Hperm | exact Hnd].
  - intros k c. rewrite <- Hin. split; apply Permutation_in;
      [apply Permutation_sym|]; exact Hperm.
  - rewrite <- Hsum. symmetry. apply list_sum_perm, Permutation_map. exact Hperm.
Qed.

Section StatisticsProperties.
Context {E : External}.
Variable urlparse_netloc : str -> outcome str.
Variable self : SitemapCrawler.

Lemma count_sources_tally (url_data : list URLRecord) :
  forall d, count_sources url_data d = tally (map source_sitemap url_data) d.
Proof. induction url_data as [|r url_data IH]; intros d; [reflexivity | apply IH]. Qed.

Lemma count_domains_tally (url_data : list URLRecord) (keys : list str) :
  Forall2 (netloc_is urlparse_netloc) url_data keys ->
  forall d, count_domains urlparse_netloc url_data d = Ok (tally keys d).
Proof.
  induction 1 as [|r k url_data keys Hk _ IH]; intros d; [reflexivity|].
  cbn [count_domains]. red in Hk. rewrite Hk.
  cbn [raising bind Monad_Result]. apply IH.
Qed.

Lemma count_domains_raises (before : list URLRecord) (bad : URLRecord)
  (after : list URLRecord) (keys : list str) (msg : str) :
  Forall2 (netloc_is urlparse_netloc) before keys ->
  urlparse_netloc (url bad) = Fails msg ->
  forall d,
    count_domains urlparse_netloc (before ++ bad :: after) d = Raise (ValueError msg).
Proof.
  intros Hbefore Hbad.
  induction Hbefore as [|r k before keys Hk _ IH]; intros d.
  - cbn [app count_domains]. rewrite Hbad. reflexivity.
  - cbn [app count_domains]. red in Hk. rewrite Hk.
    cbn [raising bind Monad_Result]. apply IH.
Qed.

Lemma print_breakdown_run (items : list (str * nat)) :
  forall w : World,
    print_breakdown items w
    = (Ok tt,
       {| net := net w;
          trace := trace w ++ map (fun item => Printed (breakdown_line item)) items |}).
Proof.
  induction items as [|item items IH]; intros w.
  - cbn. rewrite app_nil_r. destruct w; reflexivity.
  - cbn [print_breakdown]. rewrite bind_run, print_run, IH. cbn [net trace map].
    rewrite <- app_assoc. reflexivity.
Qed.

Lemma print_statistics_run (url_data : list URLRecord) (domain_keys : list str)
  (w : World) :
  url_data <> [] ->
  Forall2 (netloc_is urlparse_netloc) url_data domain_keys ->
  print_statistics urlparse_netloc self url_data w
  = (Ok tt,
     {| net := net w;
        trace := trace w
                 ++ [Printed (newline ++ py "Crawling Statistics:");
                     Printed (py "Total URLs: " ++ str_of_nat (len url_data));
                     Printed (newline ++ py "Domain breakdown:")]
                 ++ map (fun item => Printed (breakdown_line item))
                        (sorted_lt item_ltb (tally domain_keys []))
                 ++ [Printed (newline ++ py "Source sitemap breakdown:")]
                 ++ map (fun item => Printed (breakdown_line item))
                        (sorted_lt item_ltb
                           (tally (map source_sitemap url_data) [])) |}).
Proof.
  intros Hne Hkeys.
  unfold print_statistics. apply truthy_true in Hne. rewrite Hne. cbn [negb].
  rewrite bind_run, print_run, bind_run, print_run, bind_run. unfold lift at 1.
  rewrite (count_domains_tally Hkeys).
  rewrite bind_run, print_run, bind_run, print_breakdown_run.
  rewrite bind_run, print_run, print_breakdown_run, count_sources_tally.
  cbn [net trace]. rewrite <- !app_assoc. reflexivity.
Qed.

(** X12: for records whose URLs all parse, [print_statistics] prints the
    total, then one line per distinct network location and one line per
    distinct source label, each with the number of records that have it
    (the counts of a breakdown add up to the total), the lines of each
    breakdown in ascending order of the name; it changes nothing else. *)
Theorem print_statistics_breakdowns (url_data : list URLRecord)
  (domain_keys : list str) (w : World) :
  url_data <> [] ->
  Forall2 (netloc_is urlparse_netloc) url_data domain_keys ->
  exists domains sources : list (str * nat),
    print_statistics urlparse_netloc self url_data w
    = (Ok tt,
       {| net := net w;
          trace := trace w
                   ++ [Printed (newline ++ py "Crawling Statistics:");
                       Printed (py "Total URLs: " ++ str_of_nat (len url_data));
                       Printed (newline ++ py "Domain breakdown:")]
                   ++ map (fun item => Printed (breakdown_line item)) domains
                   ++ [Printed (newline ++ py "Source sitemap breakdown:")]
                   ++ map (fun item => Printed (breakdown_line item)) sources |})
    /\ breakdown_of domain_keys domains
    /\ breakdown_of (map source_sitemap url_data) sources.
Proof.
  intros Hne Hkeys.
  exists (sorted_lt item_ltb (tally domain_keys [])),
         (sorted_lt item_ltb (tally (map source_sitemap url_data) [])).
  split; [apply print_statistics_run; assumption|].
  split; apply sorted_tally_breakdown.
Qed.

Lemma print_statistics_unparsable_run (before : list URLRecord)
  (bad : URLRecord) (after : list URLRecord) (keys : list str) (msg : str)
  (w : World) :
  Forall2 (netloc_is urlparse_netloc) before keys ->
  urlparse_netloc (url bad) = Fails msg ->
  print_statistics urlparse_netloc self (before ++ bad :: after) w
  = (Raise (ValueError msg),
     {| net := net w;
        trace := trace w
                 ++ [Printed (newline ++ py "Crawling Statistics:");
                     Printed (py "Total URLs: "
                              ++ str_of_nat (len (before ++ bad :: after)))] |}).
Proof.
  intros Hbefore Hbad. unfold print_statistics.
  assert (Hne : truthy (before ++ bad :: after) = true) by (destruct before; reflexivity).
  rewrite Hne. cbn [negb].
  rewrite bind_run, print_run, bind_run, print_run, bind_run. unfold lift at 1.
  rewrite (@count_domains_raises before bad after keys msg Hbefore Hbad).
  cbn [net trace]. rewrite <- !app_assoc. reflexivity.
Qed.

(** X13: when the URL of some record does not parse ([urlparse] raises
    [ValueError]), [print_statistics] raises that error after the two
    opening lines, whatever the other records are, and prints no breakdown
    at all, not even the one by source label. *)
Theorem print_statistics_unparsable_url (before : list URLRecord)
  (bad : URLRecord) (after : list URLRecord) (keys : list str) (msg : str)
  (w : World) :
  Forall2 (netloc_is urlparse_netloc) before keys ->
  urlparse_netloc (url bad) = Fails msg ->
  exists evs : list event,
    print_statistics urlparse_netloc self (before ++ bad :: after) w
    = (Raise (ValueError msg), {| net := net w; trace := trace w ++ evs |})
    /\ List.length (printed evs) = 2
    /\ forall item : str * nat, ~ In (breakdown_line item) (printed evs).
Proof.
  intros Hbefore Hbad. eexists.
  split; [exact (@print_statistics_unparsable_run before bad after keys msg w Hbefore Hbad)|].
  split; [reflexivity|].
  intros item [H|[H|[]]].
  - unfold breakdown_line, newline in H. cbn in H. discriminate H.
  - unfold breakdown_line in H. cbn in H. discriminate H.
Qed.

End StatisticsProperties.

Lemma print_statistics_breakdowns_witness :
  exists domains sources : list (str * nat),
    fst (print_statistics (E := offline) sample_netloc main_crawler sample_records
           (start offline tt)) = Ok tt
    /\ breakdown_of [py "b.com"; py "a.com"; py "b.com"] domains
    /\ breakdown_of [py "s2.xml"; py "s1.xml"; py "s1.xml"] sources.
Proof.
  destruct (@print_statistics_breakdowns offline sample_netloc main_crawler
              sample_records [py "b.com"; py "a.com"; py "b.com"] (start offline tt))
    as (domains & sources & Hrun & Hd & Hs).
  - discriminate.
  - repeat constructor.
  - exists domains, sources.
    split; [rewrite Hrun; reflexivity|]. split; assumption.
Defined.

Lemma print_statistics_unparsable_url_witness :
  fst (print_statistics (E := offline) sample_netloc main_crawler
         (sample_records ++ [record "https://[b.com/x"]) (start offline tt))
  = Raise (ValueError (py "Invalid IPv6 URL")).
Proof.
  destruct (@print_statistics_unparsable_url offline sample_netloc main_crawler
              sample_records (record "https://[b.com/x") []
              [py "b.com"; py "a.com"; py "b.com"] (py "Invalid IPv6 URL")
              (start offline tt))
    as (evs & Hrun & _).
  - repeat constructor.
  - reflexivity.
  - rewrite Hrun. reflexivity.
Defined.

(** ** [main] *)

Lemma requests_printed_map {A : Type} (f : A -> str) (l : list A) :
  requests (map (fun a => Printed (f a)) l) = []
  /\ writes (map (fun a => Printed (f a)) l) = []
  /\ sleeps (map (fun a => Printed (f a)) l) = [].
Proof.
  induction l as [|a l IH]; [repeat split|].
  destruct IH as (H1 & H2 & H3). repeat split; assumption.
Qed.

Section MainProperties.
Context {E : External}.
Variable urlparse_netloc : str -> outcome str.

Lemma main_crawler_base : base_url (__init__ BASE_URL 1.0) = [].
Proof. reflexivity. Qed.

Lemma writes_after_request (self : SitemapCrawler) (u : str) (o : Result Response) :
  writes (after_request self u o) = [].
Proof.
  pose proof (paced_fetch self u o) as (_ & _ & H). exact H.
Qed.

Lemma sleeps_after_failure (self : SitemapCrawler) (u : str) (e : exn) :
  sleeps (after_request self u (Raise e)) = [].
Proof.
  unfold after_request, fetch_body. cbn [bind Monad_Result app].
  destruct (caught e); reflexivity.
Qed.

(** The run of [main] when the fetch of its entry URL fails. *)
Lemma main_failed_entry_run (w : World) (o : Result Response) (n' : Net) :
  session_get (net w) (py "sitemap_index.xml") 30 = (o, n') ->
  fetch_failure (__init__ BASE_URL 1.0) o ->
  main urlparse_netloc w
  = (Ok tt,
     {| net := n';
        trace := trace w
                 ++ [Printed (py "Starting crawl from: sitemap_index.xml");
                     Printed (py "Fetching: sitemap_index.xml");
                     HttpGet (py "sitemap_index.xml") 30]
                 ++ after_request (__init__ BASE_URL 1.0) (py "sitemap_index.xml") o
                 ++ [Printed (py "No URLs to save")] |})
  /\ exists msg : str,
       printed (after_request (__init__ BASE_URL 1.0) (py "sitemap_index.xml") o)
       = [py "Error processing sitemap_index.xml: " ++ msg].
Proof.
  intros Hget Hfail. apply fetch_result_none in Hfail. split.
  - unfold main. cbv zeta. rewrite bind_run.
    unfold crawl_sitemap_index. rewrite bind_run. unfold lift at 1.
    rewrite (make_absolute_url_empty_base _ (py "sitemap_index.xml") main_crawler_base).
    rewrite bind_run, print_run, bind_run, fetch_xml_run. cbn [net trace].
    unfold SITEMAP_INDEX_URL. rewrite Hget. cbn [fst snd]. rewrite Hfail.
    cbn [ret Monad_M]. rewrite bind_run.
    change (save_to_csv (__init__ BASE_URL 1.0) [] OUTPUT_FILE) with
      (print (E := E) (py "No URLs to save")).
    rewrite print_run. cbn [net trace print_statistics truthy negb ret Monad_M].
    rewrite <- !app_assoc. reflexivity.
  - rewrite printed_after_request, Hfail. unfold fetch_result in Hfail.
    destruct (fetch_body _ o) as [root|e]; [discriminate|].
    eexists. reflexivity.
Qed.

(** X14: when the fetch of [sitemap_index.xml] fails, [main] ends without
    raising, having made that one request, written no file and printed
    four lines: the start of the crawl, the fetch, the error, and
    [No URLs to save]; no statistics are printed. *)
Theorem main_entry_fetch_fails (w : World) (o : Result Response) (n' : Net) :
  session_get (net w) (py "sitemap_index.xml") 30 = (o, n') ->
  fetch_failure (__init__ BASE_URL 1.0) o ->
  exists (evs : list event) (msg : str),
    main urlparse_netloc w = (Ok tt, {| net := n'; trace := trace w ++ evs |})
    /\ requests evs = [py "sitemap_index.xml"]
    /\ writes evs = []
    /\ printed evs = [py "Starting crawl from: sitemap_index.xml";
                      py "Fetching: sitemap_index.xml";
                      py "Error processing sitemap_index.xml: " ++ msg;
                      py "No URLs to save"].
Proof.
  intros Hget Hfail.
  destruct (main_failed_entry_run w Hget Hfail) as [Hrun [msg Hprinted]].
  eexists. exists msg. split; [exact Hrun|].
  rewrite !requests_app, !writes_app, !printed_app.
  rewrite requests_after_request, writes_after_request, Hprinted.
  repeat split.
Qed.

(** X15: [main], as it is written, never gets a document.  Its entry URL
    [sitemap_index.xml] has no scheme and its base URL is empty, so the
    session refuses the URL and the network is not reached: whatever the
    world, [main] returns without raising, leaves the network as it was,
    never sleeps, writes no file, and prints the start of the crawl, the
    fetch, the refusal and [No URLs to save]. *)
Theorem main_never_reaches_network (w : World) :
  exists evs : list event,
    main urlparse_netloc w = (Ok tt, {| net := net w; trace := trace w ++ evs |})
    /\ requests evs = [py "sitemap_index.xml"]
    /\ sleeps evs = []
    /\ writes evs = []
    /\ printed evs = [py "Starting crawl from: sitemap_index.xml";
                      py "Fetching: sitemap_index.xml";
                      py "Error processing sitemap_index.xml: "
                      ++ refusal (py "sitemap_index.xml");
                      py "No URLs to save"].
Proof.
  assert (Hget : session_get (net w) (py "sitemap_index.xml") 30
                 = (Raise (RequestException (refusal (py "sitemap_index.xml"))), net w)).
  { unfold session_get.
    replace (served (py "sitemap_index.xml")) with false by reflexivity.
    reflexivity. }
  assert (Hfail : fetch_failure (__init__ BASE_URL 1.0)
                    (Raise (RequestException (refusal (py "sitemap_index.xml")))))
    by (constructor; reflexivity).
  destruct (main_failed_entry_run w Hget Hfail) as [Hrun _].
  eexists. split; [exact Hrun|].
  rewrite !requests_app, !sleeps_app, !writes_app, !printed_app.
  rewrite requests_after_request, writes_after_request, sleeps_after_failure.
  rewrite printed_after_request.
  repeat split.
Qed.

End MainProperties.

Lemma main_entry_fetch_fails_witness :
  exists (evs : list event) (msg : str),
    main (E := offline) sample_netloc (start offline tt)
    = (Ok tt, @Build_World offline tt ([] ++ evs))
    /\ writes evs = [].
Proof.
  destruct (@main_entry_fetch_fails offline sample_netloc (start offline tt)
              (Raise (RequestException (no_scheme (py "sitemap_index.xml")))) tt
              eq_refl
              (@transport_failure offline (__init__ BASE_URL 1.0)
                 (RequestException (no_scheme (py "sitemap_index.xml"))) eq_refl))
    as (evs & msg & Hrun & _ & Hw & _).
  exists evs, msg. split; assumption.
Defined.

(** The run of [main] at a site that has an index: the site is not asked. *)
Example main_ex_com :
  let w := snd (main (E := ex_com) sample_netloc (start ex_com tt)) in
  requests (trace w) = [py "sitemap_index.xml"]
  /\ writes (trace w) = []
  /\ printed (trace w)
     = [py "Starting crawl from: sitemap_index.xml";
        py "Fetching: sitemap_index.xml";
        py "Error processing sitemap_index.xml: Invalid URL 'sitemap_index.xml': No scheme supplied. Perhaps you meant https://sitemap_index.xml?";
        py "No URLs to save"].
Proof. vm_compute. repeat split. Qed.

Lemma extract_sitemap_urls_clean_witness :
  exists urls : list str,
    _extract_sitemap_urls ex_index = Ok urls
    /\ In (py "https://ex.com/s1.xml") urls
    /\ stripped (py "https://ex.com/s1.xml").
Proof.
  destruct (extract_sitemap_urls_clean ex_index) as (urls & c & Hrun & Hall).
  exists urls. split; [exact Hrun|].
  assert (Hin : In (py "https://ex.com/s1.xml") urls).
  { assert (Hval : _extract_sitemap_urls ex_index
                   = Ok [py "https://ex.com/s0.xml"; py "https://ex.com/s1.xml"])
      by reflexivity.
    rewrite Hrun in Hval. injection Hval as ->. right; left; reflexivity. }
  split; [exact Hin | exact (proj1 (proj2 (Hall _ Hin)))].
Defined.

Lemma extract_url_data_records_witness :
  exists data : list URLRecord,
    _extract_url_data bare_urlset (py "s.xml") = Ok data
    /\ forall r, In r data -> source_sitemap r = py "s.xml" /\ stripped (url r).
Proof.
  destruct (extract_url_data_records bare_urlset (py "s.xml"))
    as (data & c & Hrun & Hall).
  exists data. split; [exact Hrun|].
  intros r Hr. destruct (Hall r Hr) as (Hsrc & _ & Hst & _). split; assumption.
Defined.

Lemma fetch_xml_one_request_witness :
  exists evs : list event,
    fst (_fetch_xml (E := ex_com) main_crawler (py "https://ex.com/s0.xml")
           (start ex_com tt)) = Ok None
    /\ requests evs = [py "https://ex.com/s0.xml"]
    /\ exists msg : str,
         printed evs = [py "Fetching: https://ex.com/s0.xml";
                        py "Error processing https://ex.com/s0.xml: " ++ msg].
Proof.
  destruct (@fetch_xml_one_request ex_com main_crawler (py "https://ex.com/s0.xml")
              (start ex_com tt))
    as (evs & _ & _ & Hreq & _ & Hcase).
  assert (Hres : fst (_fetch_xml (E := ex_com) main_crawler (py "https://ex.com/s0.xml")
                        (start ex_com tt)) = Ok None)
    by (vm_compute; reflexivity).
  rewrite Hres in Hcase.
  exists evs. split; [exact Hres|]. split; [exact Hreq | exact Hcase].
Defined.
